(** * Offline data sync of the Azure Mobile Apps JavaScript client

    A shallow embedding of the local SQLite store
    (sdk/src/Platforms/cordova/MobileServiceSqliteStore.js), of the sync
    context (sdk/src/sync/MobileServiceSyncContext.js) and of the ETag and
    item helpers of MobileServiceTable.js, with the properties of the
    specification, and further properties of the code, stated and proved
    over them. *)

From Stdlib Require Import ZArith Lia Ascii String List Bool.
From stdpp Require Import base option list gmap strings fin_maps pretty.

Local Open Scope string_scope.
Local Open Scope list_scope.

(** ** JavaScript strings

    A string is a sequence of code units; the development uses the 8-bit
    characters of [string] and treats only A-Z as having a lower case. *)

Module JsString.

Definition dquote : ascii := Eval cbv in ascii_of_nat 34.
Definition backslash : ascii := Eval cbv in ascii_of_nat 92.

(** [s.length] *)
Definition length (s : string) : nat := String.length s.

(** [s[i]] : [undefined] outside the string *)
Definition charAt (s : string) (i : nat) : option ascii := String.get i s.

(** [s.substr(start, len)] *)
Definition substr (s : string) (start len : nat) : string :=
  String.substring start len s.

(** [s.replace(/\"/g, '\\\"')] : every double quote gets a backslash in front *)
Fixpoint escapeQuotes (s : string) : string :=
  match s with
  | EmptyString => EmptyString
  | String c r =>
      if Ascii.eqb c dquote
      then String backslash (String dquote (escapeQuotes r))
      else String c (escapeQuotes r)
  end.

(** [s.replace(/\\\"/g, '"')] : the matches of the two characters backslash,
    double quote are found from the left and do not overlap *)
Fixpoint unescapeQuotes (s : string) : string :=
  match s with
  | EmptyString => EmptyString
  | String c r =>
      match r with
      | EmptyString => String c EmptyString
      | String d r' =>
          if Ascii.eqb c backslash && Ascii.eqb d dquote
          then String dquote (unescapeQuotes r')
          else String c (unescapeQuotes r)
      end
  end.

(** ASCII lower case of one character, [toLowerCase] on A-Z *)
Definition lowerChar (c : ascii) : ascii :=
  let n := nat_of_ascii c in
  if (65 <=? n)%nat && (n <=? 90)%nat then ascii_of_nat (n + 32) else c.

(** [s.toLowerCase()], at a string of characters of ASCII ([isAscii]);
    characters outside ASCII are left as they are *)
Fixpoint toLowerCase (s : string) : string :=
  match s with
  | EmptyString => EmptyString
  | String c r => String (lowerChar c) (toLowerCase r)
  end.


End JsString.

(** ** ETag and version (MobileServiceTable.js) *)

Module Etag.
Import JsString.

(** [getEtagFromVersion]: add wrapping double quotes and escape all double
    quotes *)
Definition getEtagFromVersion (version : string) : string :=
  let result := escapeQuotes version in
  String dquote (result +:+ String dquote EmptyString).

(** [getVersionFromEtag]: remove surrounding double quotes and unescape
    internal quotes *)
Definition getVersionFromEtag (etag : string) : string :=
  let len := length etag in
  let result :=
    if (1 <? len)%nat
       && bool_decide (charAt etag 0 = Some dquote)
       && bool_decide (charAt etag (len - 1) = Some dquote)
    then substr etag 1 (len - 2)
    else etag in
  unescapeQuotes result.

(** [quoted s] is the string [s] between two double quotes *)
Definition quoted (s : string) : string :=
  String dquote (s +:+ String dquote EmptyString).

(** every double quote of the string is immediately preceded by a backslash;
    [afterBackslash] tells whether the character before the string is one *)
Fixpoint quotesEscaped (afterBackslash : bool) (s : string) : bool :=
  match s with
  | EmptyString => true
  | String c r =>
      if Ascii.eqb c dquote then afterBackslash && quotesEscaped false r
      else quotesEscaped (Ascii.eqb c backslash) r
  end.

(** a weak entity tag, W/"abc" *)
Definition weakEtag : string := "W/" +:+ quoted "abc".

(** the characters a, double quote, b *)
Definition bareQuoteSample : string := String "a" (String dquote "b").

(** the characters a, backslash, double quote, b *)
Definition escapedSample : string :=
  String "a" (String backslash (String dquote "b")).

End Etag.


(** ** Values, records, errors and promises *)

(** The scalar JavaScript values a record holds and SQLite stores. Objects,
    arrays and dates reach the store only through the serializer, and
    numbers are the integers. *)
Inductive value : Type :=
| VUndefined
| VNull
| VBool (b : bool)
| VNum (n : Z)
| VStr (s : string).

#[global] Instance value_eq_dec : EqDecision value.
Proof. solve_decision. Defined.

(** A record, and a row of a table, is an object used as a map from property
    (column) name to value. *)
Abbreviation record := (gmap string value).

(** [r[p]] *)
Definition getProp (r : record) (p : string) : value :=
  default VUndefined (r !! p).

(** The errors the code throws or passes to a callback, one constructor for
    each place. *)
Inductive error : Type :=
| NotNullError (name : string)
| NotNullOrEmptyError (name : string)
| InvalidIdError (name : string) (v : value)
| DefinitionNotFound (tableName : string)
| ItemDoesNotExist (id : value)
| OperationNotSupported (action : string)
| TooManyColumns
| UnexpectedNumberOfStatements
| NotInitialized
| ReferenceError (symbol : string)
| TypeError (reason : string)
| InvalidTableDefinition (reason : string)
| SerializationError (reason : string)
| SqlError (reason : string).

(** A computation that may throw: [inl e] is [throw e], and [x ← c; k] runs
    [k] when [c] has not thrown. *)
Abbreviation throws := (sum error).

#[global] Instance throws_ret : MRet throws := fun _ a => inr a.
#[global] Instance throws_bind : MBind throws := fun _ _ k c =>
  match c with
  | inl e => inl e
  | inr a => k a
  end.

(** [for] over a list whose body may throw; the results are collected. *)
Fixpoint forEach {A B} (f : A -> throws B) (l : list A) : throws (list B) :=
  match l with
  | [] => inr []
  | a :: l' => b ← f a; bs ← forEach f l'; inr (b :: bs)
  end.

(** What becomes of a promise: it is resolved with a value, rejected with an
    error, or never settled. *)
Inductive promise (A : Type) : Type :=
| Resolved (a : A)
| Rejected (e : error)
| Pending.
Arguments Resolved {A} a.
Arguments Rejected {A} e.
Arguments Pending {A}.


(** ** Utilities/taskRunner.js *)

Module TaskRunner.

(** Modelled from the spec: taskRunner.js is not part of the sources. "The
    Local Table Store owns a single-writer task queue; every operation is
    enqueued and executed serially." [run fromTask task] is the promise that
    [runner.run(task)] returns. Called while no task is running, the task
    is run and the promise settles as the task does. Called from inside the
    running task ([fromTask]), the new task waits in the queue until the
    running task has settled; a running task that waits for this promise
    before it settles never does, and neither does the promise. *)
Definition run {A} (fromTask : bool) (task : promise A) : promise A :=
  if fromTask then Pending else task.

End TaskRunner.

(** ** Utilities/Extensions.js and Utilities/Validate.js *)

Module Extensions.

(** Modelled from the spec: Extensions.js is not part of the sources.
    [isNull] holds of [null] and of [undefined] (Validate.notNull: "Ensure the
    value is not null (or undefined)"). *)
Definition isNull (v : value) : bool :=
  match v with
  | VUndefined | VNull => true
  | _ => false
  end.

Definition isControl (c : ascii) : bool :=
  let n := nat_of_ascii c in
  (n <? 32)%nat || ((127 <=? n)%nat && (n <=? 159)%nat).

Definition isForbiddenInId (c : ascii) : bool :=
  isControl c
  || bool_decide (c ∈ [JsString.dquote; "+"%char; "?"%char; JsString.backslash;
                       "/"%char; "`"%char]).

(** Modelled from the spec: Extensions.js is not part of the sources. "String
    ids are non-empty, must not match . or .., and must not contain double
    quote, +, ?, backslash, /, backtick, or control characters; integer ids
    must be positive." *)
Definition isValidId (v : value) : bool :=
  match v with
  | VStr s =>
      negb (bool_decide (s = "")) && negb (bool_decide (s = "."))
      && negb (bool_decide (s = ".."))
      && forallb (fun c => negb (isForbiddenInId c)) (list_ascii_of_string s)
  | VNum n => (0 <? n)%Z
  | _ => false
  end.

End Extensions.

Module Validate.

(** [Validate.notNull(value, name)] *)
Definition notNull (v : value) (name : string) : throws unit :=
  if Extensions.isNull v then inl (NotNullError name) else inr tt.

(** [Validate.notNullOrEmpty(value, name)], at a string *)
Definition notNullOrEmpty (s : string) (name : string) : throws unit :=
  if bool_decide (s = "") then inl (NotNullOrEmptyError name) else inr tt.

(** [Validate.isValidId(value, name)] *)
Definition isValidId (v : value) (name : string) : throws unit :=
  if negb (Extensions.isValidId v) then inl (InvalidIdError name v) else inr tt.

End Validate.

(** ** Queries (azure-query-js)

    The structured query object: the store reads and writes its components
    with [getComponents] and [setComponents]. The filter is kept as the
    predicate on rows it denotes. *)

Module Query.

Record components : Type := {
  table : string;
  selections : list string;
  filters : record -> bool;
  skip : nat;
  take : option nat;
  includeTotalCount : bool
}.

(** [components.selections = []] *)
Definition clearSelections (c : components) : components :=
  {| table := table c; selections := []; filters := filters c;
     skip := skip c; take := take c;
     includeTotalCount := includeTotalCount c |}.

End Query.

(** ** The embedded SQLite engine

    The statements the store builds, and what the engine does with them. This
    is the store's environment, not code of the SDK. The model is of the
    engine on typed rows and plain names:
    - a table or column name is looked up in the one spelling the statement
      uses, and a statement is taken to parse whatever its names are; the
      engine reads a name that stands in a statement without brackets as a
      name only when it is an identifier and no keyword ([isBareName]), a
      name in brackets when it has no closing bracket ([isBracketName]), and
      it finds a table or a column whatever the case of A-Z in its name;
    - a value is stored and compared as it is given; the engine first
      converts it to the affinity of the column ([affinityOf]), which leaves
      the value alone when it is of the kind of the column ([fits]);
    - the rows of a table are kept in the order in which they were inserted;
      the engine keeps a table whose primary key is declared INTEGER in the
      order of the keys;
    - a statement may have any number of parameters; the engine takes
      [SQLITE_MAX_VARIABLE_NUMBER] of them.
    The properties below that depend on one of these say so in a hypothesis
    or are stated without regard to it. A value that is [null] or
    [undefined] is the SQL NULL. *)

Module Sqlite.

Record column : Type := {
  columnName : string;
  declaredType : string;
  isPrimaryKey : bool
}.

Record table : Type := {
  tableColumns : list column;
  tableRows : list record
}.

Abbreviation database := (gmap string table).

(** the engine's default limit on the columns of a table *)
Definition SQLITE_MAX_COLUMN : nat := 2000.


Definition isLetter (c : ascii) : bool :=
  let n := nat_of_ascii c in
  ((65 <=? n)%nat && (n <=? 90)%nat) || ((97 <=? n)%nat && (n <=? 122)%nat).

Definition isDecimalDigit (c : ascii) : bool :=
  let n := nat_of_ascii c in (48 <=? n)%nat && (n <=? 57)%nat.

(** The keywords of the engine, in lower case. The word action is left out:
    the engine reads it as a name where a name is expected. (It does so for
    others of these words too; the list errs on the side of the keywords.) *)
Definition keywords : list string :=
  ["abort"; "add"; "after"; "all"; "alter"; "always"; "analyze"; "and"; "as";
   "asc"; "attach"; "autoincrement"; "before"; "begin"; "between"; "by";
   "cascade"; "case"; "cast"; "check"; "collate"; "column"; "commit";
   "conflict"; "constraint"; "create"; "cross"; "current"; "current_date";
   "current_time"; "current_timestamp"; "database"; "default"; "deferrable";
   "deferred"; "delete"; "desc"; "detach"; "distinct"; "do"; "drop"; "each";
   "else"; "end"; "escape"; "except"; "exclude"; "exclusive"; "exists";
   "explain"; "fail"; "filter"; "first"; "following"; "for"; "foreign"; "from";
   "full"; "generated"; "glob"; "group"; "groups"; "having"; "if"; "ignore";
   "immediate"; "in"; "index"; "indexed"; "initially"; "inner"; "insert";
   "instead"; "intersect"; "into"; "is"; "isnull"; "join"; "key"; "last";
   "left"; "like"; "limit"; "match"; "materialized"; "natural"; "no"; "not";
   "nothing"; "notnull"; "null"; "nulls"; "of"; "offset"; "on"; "or"; "order";
   "others"; "outer"; "over"; "partition"; "plan"; "pragma"; "preceding";
   "primary"; "query"; "raise"; "range"; "recursive"; "references"; "regexp";
   "reindex"; "release"; "rename"; "replace"; "restrict"; "returning"; "right";
   "rollback"; "row"; "rows"; "savepoint"; "select"; "set"; "table"; "temp";
   "temporary"; "then"; "ties"; "to"; "transaction"; "trigger"; "unbounded";
   "union"; "unique"; "update"; "using"; "vacuum"; "values"; "view"; "virtual";
   "when"; "where"; "window"; "with"; "within"; "without"].

(** the names of the statements are kept this short, so that no statement
    of the store comes near the engine's limit on the length of a statement *)
Definition MAX_NAME_LENGTH : nat := 100.

(** A name the engine reads as a name where it stands in a statement as it
    is, without brackets or quotes: a letter or an underscore followed by
    letters, digits and underscores, no keyword, and not a name the engine
    reserves for itself (sqlite_...). *)
Definition isBareName (name : string) : bool :=
  match name with
  | EmptyString => false
  | String c rest =>
      (isLetter c || Ascii.eqb c "_")
      && forallb (fun c => isLetter c || isDecimalDigit c || Ascii.eqb c "_")
           (list_ascii_of_string rest)
      && negb (bool_decide (JsString.toLowerCase name ∈ keywords))
      && negb (String.prefix "sqlite_" (JsString.toLowerCase name))
      && (String.length name <=? MAX_NAME_LENGTH)%nat
  end.

(** A name the engine reads as a name between brackets, [[name]]: printable
    characters of ASCII, at least one, none of them the closing bracket. *)
Definition isBracketName (name : string) : bool :=
  negb (bool_decide (name = ""))
  && forallb (fun c => let n := nat_of_ascii c in
                       (32 <=? n)%nat && (n <=? 126)%nat && negb (Ascii.eqb c "]"))
       (list_ascii_of_string name)
  && (String.length name <=? MAX_NAME_LENGTH)%nat.

(** the affinity of a column, by which the engine converts the values stored
    in it and the values compared with it *)
Inductive affinity : Type :=
| TextAffinity
| NumericAffinity
| IntegerAffinity
| RealAffinity
| BlobAffinity.

(** [sub] occurs in [s] *)
Definition occursIn (sub s : string) : bool :=
  match String.index 0 sub s with
  | Some _ => true
  | None => false
  end.

(** The affinity the engine gives a column of the declared type, by its
    rules, in this order: INT in the type gives INTEGER; CHAR, CLOB or TEXT
    give TEXT; BLOB, or no type, gives BLOB; REAL, FLOA or DOUB give REAL;
    every other type gives NUMERIC. *)
Definition affinityOf (declaredType : string) : affinity :=
  let ty := JsString.toLowerCase declaredType in
  if occursIn "int" ty then IntegerAffinity
  else if occursIn "char" ty || occursIn "clob" ty || occursIn "text" ty
  then TextAffinity
  else if occursIn "blob" ty || bool_decide (ty = "") then BlobAffinity
  else if occursIn "real" ty || occursIn "floa" ty || occursIn "doub" ty
  then RealAffinity
  else NumericAffinity.

(** The value is of the kind of a column of the affinity, so that the engine
    stores it and compares it as it is: NULL in every column, text in a
    column of affinity TEXT or BLOB, a number in a column of affinity
    INTEGER, REAL, NUMERIC or BLOB. *)
Definition fits (a : affinity) (v : value) : bool :=
  match v, a with
  | VNull, _ => true
  | VStr _, (TextAffinity | BlobAffinity) => true
  | VNum _, (IntegerAffinity | RealAffinity | NumericAffinity | BlobAffinity) => true
  | _, _ => false
  end.

(** One constructor for each statement text of the store, [?] standing for a
    bound parameter:
    - PRAGMA table_info(t)
    - CREATE TABLE [t] ([c] type PRIMARY KEY, ...)
    - ALTER TABLE t ADD COLUMN c type
    - INSERT OR IGNORE INTO t (c, ...) VALUES (?, ...)
    - UPDATE t SET c = ?, ... WHERE w = ?
    - DELETE FROM t WHERE w in (?, ...)
    - SELECT * FROM [t] WHERE w = ? COLLATE NOCASE
    - the data statement and the COUNT statement of a translated query. *)
Inductive sql : Type :=
| PragmaTableInfo (tableName : string)
| CreateTable (tableName : string) (clauses : list column)
| AlterTableAddColumn (tableName columnName columnType : string)
| InsertOrIgnore (tableName : string) (columnNames : list string)
| Update (tableName : string) (columnNames : list string) (whereColumn : string)
| DeleteIn (tableName : string) (whereColumn : string) (placeholders : nat)
| SelectNoCase (tableName : string) (whereColumn : string)
| SelectQuery (q : Query.components)
| SelectCount (q : Query.components).

(** [a = b] in SQL: NULL is equal to nothing *)
Definition sqlEq (a b : value) : bool :=
  negb (Extensions.isNull a) && negb (Extensions.isNull b) && bool_decide (a = b).

(** [a = b COLLATE NOCASE]: text is compared after folding A-Z *)
Definition sqlEqNoCase (a b : value) : bool :=
  match a, b with
  | VStr s, VStr t => bool_decide (JsString.toLowerCase s = JsString.toLowerCase t)
  | _, _ => sqlEq a b
  end.

Definition columnNames (t : table) : list string := columnName <$> tableColumns t.

Definition hasColumn (t : table) (c : string) : bool :=
  bool_decide (c ∈ columnNames t).

Definition getTable (name : string) (db : database) : throws table :=
  match db !! name with
  | Some t => inr t
  | None => inl (SqlError "no such table")
  end.

Definition setRows (t : table) (rows : list record) : table :=
  {| tableColumns := tableColumns t; tableRows := rows |}.

(** a row with NULL in every column *)
Definition nullRow (t : table) : record :=
  list_to_map ((fun c => (c, VNull)) <$> columnNames t).

(** the new row violates the PRIMARY KEY constraint *)
Definition conflicts (t : table) (row : record) : bool :=
  existsb (fun c =>
    isPrimaryKey c
    && existsb (fun r => sqlEq (getProp r (columnName c)) (getProp row (columnName c)))
         (tableRows t))
    (tableColumns t).

Definition tableInfoRow (c : column) : record :=
  {[ "name" := VStr (columnName c); "type" := VStr (declaredType c);
     "pk" := VNum (if isPrimaryKey c then 1 else 0) ]}.

(** the rows a translated query selects, before projection *)
Definition selectedRows (q : Query.components) (t : table) : list record :=
  let matching := List.filter (Query.filters q) (tableRows t) in
  let skipped := drop (Query.skip q) matching in
  match Query.take q with
  | Some n => firstn n skipped
  | None => skipped
  end.

Definition project (selections : list string) (r : record) : record :=
  match selections with
  | [] => r
  | _ => filter (fun kv => kv.1 ∈ selections) r
  end.

(** [executeSql(statement, parameters)]: the result rows and the database
    after the statement, or the engine's error. *)
Definition executeSql (statement : sql) (parameters : list value)
    (db : database) : throws (list record * database) :=
  match statement with
  | PragmaTableInfo name =>
      match db !! name with
      | Some t => inr (tableInfoRow <$> tableColumns t, db)
      | None => inr ([], db)
      end
  | CreateTable name clauses =>
      if bool_decide (is_Some (db !! name))
      then inl (SqlError "table already exists")
      else if bool_decide (clauses = []) then inl (SqlError "syntax error")
      else if negb (bool_decide
                      (NoDup (JsString.toLowerCase <$> (columnName <$> clauses))))
      then inl (SqlError "duplicate column name")
      else if (1 <? length (List.filter isPrimaryKey clauses))%nat
      then inl (SqlError "more than one primary key")
      else if (SQLITE_MAX_COLUMN <? length clauses)%nat
      then inl (SqlError "too many columns")
      else inr ([], <[name := {| tableColumns := clauses; tableRows := [] |}]> db)
  | AlterTableAddColumn name c ty =>
      t ← getTable name db;
      if bool_decide (JsString.toLowerCase c ∈ JsString.toLowerCase <$> columnNames t)
      then inl (SqlError "duplicate column name")
      else if (SQLITE_MAX_COLUMN <=? length (tableColumns t))%nat
      then inl (SqlError "too many columns")
      else inr ([], <[name :=
             {| tableColumns := tableColumns t ++
                  [{| columnName := c; declaredType := ty; isPrimaryKey := false |}];
                tableRows := (fun r => <[c := VNull]> r) <$> tableRows t |}]> db)
  | InsertOrIgnore name cols =>
      t ← getTable name db;
      if negb (length cols =? length parameters)%nat
      then inl (SqlError "wrong number of parameters")
      else if negb (forallb (hasColumn t) cols) then inl (SqlError "no such column")
      else
        let row : record := list_to_map (zip cols parameters) ∪ nullRow t in
        if conflicts t row then inr ([], db)
        else inr ([], <[name := setRows t (tableRows t ++ [row])]> db)
  | Update name cols whereColumn =>
      t ← getTable name db;
      if negb (S (length cols) =? length parameters)%nat
      then inl (SqlError "wrong number of parameters")
      else if negb (forallb (hasColumn t) (whereColumn :: cols))
      then inl (SqlError "no such column")
      else
        let assigned : record := list_to_map (zip cols parameters) in
        let key := List.last parameters VNull in
        inr ([], <[name := setRows t
               ((fun r => if sqlEq (getProp r whereColumn) key then assigned ∪ r else r)
                  <$> tableRows t)]> db)
  | DeleteIn name whereColumn placeholders =>
      t ← getTable name db;
      if negb (placeholders =? length parameters)%nat
      then inl (SqlError "wrong number of parameters")
      else if negb (hasColumn t whereColumn) then inl (SqlError "no such column")
      else
        inr ([], <[name := setRows t
               (List.filter
                  (fun r => negb (existsb (sqlEq (getProp r whereColumn)) parameters))
                  (tableRows t))]> db)
  | SelectNoCase name whereColumn =>
      t ← getTable name db;
      match parameters with
      | [key] =>
          if negb (hasColumn t whereColumn) then inl (SqlError "no such column")
          else inr (List.filter (fun r => sqlEqNoCase (getProp r whereColumn) key)
                      (tableRows t), db)
      | _ => inl (SqlError "wrong number of parameters")
      end
  | SelectQuery q =>
      t ← getTable (Query.table q) db;
      if negb (forallb (hasColumn t) (Query.selections q))
      then inl (SqlError "no such column")
      else inr (project (Query.selections q) <$> selectedRows q t, db)
  | SelectCount q =>
      t ← getTable (Query.table q) db;
      let count := length (List.filter (Query.filters q) (tableRows t)) in
      inr ([ {[ "count" := VNum (Z.of_nat count) ]} ], db)
  end.

(** The body of a transaction: it runs statements one after the other on the
    database, may throw, and hands what it has read to the success callback. *)
Definition transactionBody (A : Type) : Type := database -> throws (A * database).

(** [transaction.executeSql(statement, parameters, onRows)] *)
Definition query (statement : sql) (parameters : list value)
    : transactionBody (list record) :=
  executeSql statement parameters.

(** [transaction.executeSql(statement, parameters)] of a statement whose rows
    are not read *)
Definition run (statement : sql) (parameters : list value) : transactionBody unit :=
  fun db => '(_, db') ← executeSql statement parameters db; inr (tt, db').

(** the statements of a list, in order *)
Fixpoint runAll (statements : list (sql * list value)) : transactionBody unit :=
  fun db =>
    match statements with
    | [] => inr (tt, db)
    | (statement, parameters) :: rest =>
        '(_, db') ← run statement parameters db; runAll rest db'
    end.

(** [db.transaction(body, onError, onSuccess)]: the changes of the body are
    committed when it ends without an error and discarded otherwise. *)
Definition transaction {A} (body : transactionBody A) (db : database)
    : promise A * database :=
  match body db with
  | inr (a, db') => (Resolved a, db')
  | inl e => (Rejected e, db)
  end.

End Sqlite.

(** ** Platforms/cordova/storeHelper.js and sqliteSerializer.js *)

Module StoreHelper.

(** the name of the id column, [idPropertyName] of the store *)
Definition idPropertyName : string := "id".

(** [{ name: ..., columnDefinitions: { column: type, ... } }] *)
Record tableDefinition : Type := {
  name : string;
  columnDefinitions : gmap string string
}.

(** Modelled from the spec: storeHelper.js is not part of the sources. "Every
    record has a primary key field named id." *)
Definition isId (property : string) : bool :=
  bool_decide (property = idPropertyName).

(** Modelled from the spec: storeHelper.js is not part of the sources. The id
    of a record is the value of its id property. *)
Definition getId (r : record) : value := getProp r idPropertyName.

(** Modelled from the spec: storeHelper.js is not part of the sources. The
    in-memory schema registry maps a table name to its definition. *)
Definition getTableDefinition (tableDefinitions : gmap string tableDefinition)
    (tableName : string) : option tableDefinition :=
  tableDefinitions !! tableName.

(** Modelled from the spec: storeHelper.js is not part of the sources.
    "Updates the in-memory Schema Registry." *)
Definition addTableDefinition (tableDefinitions : gmap string tableDefinition)
    (td : tableDefinition) : gmap string tableDefinition :=
  <[name td := td]> tableDefinitions.

(** "Column-type tokens accepted by defineTable" *)
Definition columnTypeTokens : list string :=
  ["object"; "array"; "date"; "integer"; "int"; "float"; "real"; "string";
   "text"; "boolean"; "bool"].

Definition idTypeTokens : list string := ["string"; "text"; "integer"; "int"].

(** Modelled from the spec: storeHelper.js is not part of the sources. "Pre:
    name non-empty; id column declared with type string or integer", every
    column type being one of the accepted tokens. *)
Definition validateTableDefinition (td : tableDefinition) : throws unit :=
  Validate.notNullOrEmpty (name td) "tableDefinition.name";;
  if negb (bool_decide (map_Forall (fun _ ty => ty ∈ columnTypeTokens)
                          (columnDefinitions td)))
  then inl (InvalidTableDefinition "columnType")
  else
    match columnDefinitions td !! idPropertyName with
    | Some ty =>
        if bool_decide (ty ∈ idTypeTokens) then inr tt
        else inl (InvalidTableDefinition "id column type")
    | None => inl (InvalidTableDefinition "id column")
    end.

End StoreHelper.

(** sqliteSerializer.js is not part of the sources: the store is stated over
    any serializer. [serialize] and [deserialize] turn a record into a row and
    back using the column definitions and may throw; [getSqliteType] gives the
    SQLite type of a column type. *)
Class SqliteSerializer : Type := {
  serialize : record -> gmap string string -> throws record;
  deserialize : record -> gmap string string -> throws record;
  getSqliteType : string -> throws string
}.

(** ** The SQLite store (MobileServiceSqliteStore.js)

    Every operation of the store is one task of its task runner, and the
    tasks run one after the other: an operation is a function of the state
    of the store, and gives the settled promise and the state afterwards. *)

Module SqliteStore.
Import StoreHelper Sqlite.

(** the argument [data] of [upsert]: nothing, one record, or an array whose
    entries may be [null] *)
Inductive data : Type :=
| DataNull
| DataRecord (r : record)
| DataArray (records : list (option record)).

(** the argument [ids] of [del]: one id or an array of ids *)
Inductive idsArgument : Type :=
| OneId (id : value)
| IdArray (ids : list value).

(** an entry of the array given to [executeBatch] *)
Record operation : Type := {
  action : string;
  opTableName : string;
  opData : data;
  opId : value
}.

(** what [read] resolves with: the records, or the records and the count *)
Inductive readResult : Type :=
| Records (result : list record)
| RecordsAndCount (result : list record) (count : value).

(** The store: the in-memory table definitions and the database it has open. *)
Record store : Type := {
  tableDefinitions : gmap string tableDefinition;
  db : database
}.

Definition setDb (s : store) (db' : database) : store :=
  {| tableDefinitions := tableDefinitions s; db := db' |}.

(** [ToNumber] of a string, at the decimal numerals; every other string is
    taken to NaN, [None] *)
Definition isDigit (c : ascii) : bool :=
  let n := nat_of_ascii c in (48 <=? n)%nat && (n <=? 57)%nat.

Definition toNumber (s : string) : option Z :=
  if forallb isDigit (list_ascii_of_string s)
  then Some (fold_left (fun acc c => 10 * acc + Z.of_nat (nat_of_ascii c - 48))%Z
               (list_ascii_of_string s) 0%Z)
  else None.

(** [columnDefinitions.length > 999]: [columnDefinitions] is the object that
    maps column names to types, so [.length] is the type of a column named
    length, and [undefined] when there is none; [undefined > 999] and
    [NaN > 999] are false *)
Definition lengthExceeds999 (columnDefinitions : gmap string string) : bool :=
  match columnDefinitions !! "length" with
  | None => false
  | Some ty =>
      match toNumber ty with
      | Some n => (999 <? n)%Z
      | None => false
      end
  end.

(** [existingColumns[key]] is truthy: the object was filled with the keys of
    [own], and inherits [constructor] and [__proto__] from [Object.prototype]
    (its other properties are not in lower case) *)
Definition isExistingColumn (own : gset string) (key : string) : bool :=
  bool_decide (key ∈ own) || bool_decide (key ∈ ["constructor"; "__proto__"]).

(** [column.name.toLowerCase()] of a row of PRAGMA table_info *)
Definition lowerCaseName (column : record) : throws string :=
  match getProp column "name" with
  | VStr n => inr (JsString.toLowerCase n)
  | _ => inl (TypeError "column.name.toLowerCase")
  end.

(** the non-null ids of an array *)
Definition nonNullIds (ids : list value) : list value :=
  List.filter (fun id => negb (Extensions.isNull id)) ids.

(** [_deleteIds(transaction, tableName, ids)] *)
Definition _deleteIds (tableName : string) (ids : list value) : transactionBody unit :=
  let deleteParams := nonNullIds ids in
  run (DeleteIn tableName idPropertyName (length deleteParams)) deleteParams.

(** the INSERT and UPDATE statements of one serialized record, with their
    parameters *)
Definition upsertStatements (tableName : string) (r : record)
    : list (sql * list value) :=
  let properties := map_to_list r in
  let insertColumnNames := properties.*1 in
  let insertValues := properties.*2 in
  let updated := List.filter (fun kv => negb (isId kv.1)) properties in
  let updateColumnNames := updated.*1 in
  let updateValues := updated.*2 in
  (InsertOrIgnore tableName insertColumnNames, insertValues)
  :: (if (0 <? length updateValues)%nat
      then [(Update tableName updateColumnNames idPropertyName,
             updateValues ++ [getId r])]
      else []).

Section WithSerializer.
Context {serializer : SqliteSerializer}.

(** [createTable(transaction, tableDefinition)] *)
Definition createTable (td : tableDefinition) : transactionBody unit :=
  fun db =>
    columnDefinitionClauses ← forEach (fun '(columnName, columnType) =>
        sqliteType ← getSqliteType columnType;
        inr {| columnName := columnName; declaredType := sqliteType;
               isPrimaryKey := isId columnName |})
      (map_to_list (columnDefinitions td));
    run (CreateTable (name td) columnDefinitionClauses) [] db.

(** [addMissingColumns(transaction, tableDefinition, existingColumns)] *)
Definition addMissingColumns (td : tableDefinition) (existingColumns : gset string)
    : transactionBody unit :=
  runAll (omap (fun '(columnName, columnType) =>
      if negb (isExistingColumn existingColumns (JsString.toLowerCase columnName))
      then Some (AlterTableAddColumn (name td) columnName columnType, [])
      else None)
    (map_to_list (columnDefinitions td))).

(** [defineTable(tableDefinition)] *)
Definition defineTable (td : tableDefinition) (s : store) : promise unit * store :=
  match validateTableDefinition td with
  | inl e => (Rejected e, s)
  | inr _ =>
      let body : transactionBody unit := fun db =>
        '(rows, db) ← query (PragmaTableInfo (name td)) [] db;
        if (0 <? length rows)%nat
        then
          names ← forEach lowerCaseName rows;
          addMissingColumns td (list_to_set names) db
        else createTable td db in
      match transaction body (db s) with
      | (Resolved _, db') =>
          (Resolved tt,
           {| tableDefinitions := addTableDefinition (tableDefinitions s) td;
              db := db' |})
      | (Rejected e, db') => (Rejected e, setDb s db')
      | (Pending, db') => (Pending, setDb s db')
      end
  end.

(** the first loop of [_upsert]: an entry that is not null must have a valid
    id and is replaced by its serialization; [i] is the index of the first
    entry *)
Fixpoint serializeRecords (columnDefinitions : gmap string string) (i : nat)
    (records : list (option record)) : throws (list (option record)) :=
  match records with
  | [] => inr []
  | entry :: rest =>
      entry' ← match entry with
               | None => inr None
               | Some r =>
                   Validate.isValidId (getId r)
                     ("records[" +:+ pretty i +:+ "]." +:+ idPropertyName);;
                   r' ← serialize r columnDefinitions;
                   inr (Some r')
               end;
      rest' ← serializeRecords columnDefinitions (S i) rest;
      inr (entry' :: rest')
  end.

(** the array [records] that [_upsert] computes from [data] *)
Definition recordsOf (d : data) : list (option record) :=
  match d with
  | DataNull => []
  | DataRecord r => [Some r]
  | DataArray records => records
  end.

(** the statements of the second loop of [_upsert], null entries skipped *)
Definition statementsOf (tableName : string) (records : list (option record))
    : list (sql * list value) :=
  flat_map (fun entry =>
    match entry with
    | Some r => upsertStatements tableName r
    | None => []
    end) records.

(** [_upsert(transaction, tableName, data)]; the test hook [_editStatement]
    is not set *)
Definition _upsert (tableDefinitions : gmap string tableDefinition)
    (tableName : string) (d : data) : transactionBody unit :=
  fun db =>
    Validate.notNullOrEmpty tableName "tableName";;
    match getTableDefinition tableDefinitions tableName with
    | None => inl (DefinitionNotFound tableName)
    | Some tableDefinition =>
        match d with
        | DataNull => inr (tt, db)
        | _ =>
            records ← serializeRecords (columnDefinitions tableDefinition) 0
                        (recordsOf d);
            if lengthExceeds999 (columnDefinitions tableDefinition)
            then inl TooManyColumns
            else runAll (statementsOf tableName records) db
        end
    end.

(** [upsert(tableName, data)] *)
Definition upsert (tableName : string) (d : data) (s : store)
    : promise unit * store :=
  let '(result, db') := transaction (_upsert (tableDefinitions s) tableName d) (db s) in
  (result, setDb s db').

(** [lookup(tableName, id, suppressRecordNotFoundError)]: resolves with the
    record, or with [undefined], [None] *)
Definition lookup (tableName : string) (id : value)
    (suppressRecordNotFoundError : bool) (s : store) : promise (option record) :=
  match
    Validate.notNullOrEmpty tableName "tableName";;
    Validate.isValidId id "id";;
    match getTableDefinition (tableDefinitions s) tableName with
    | None => inl (DefinitionNotFound tableName)
    | Some tableDefinition => inr tableDefinition
    end
  with
  | inl e => Rejected e
  | inr tableDefinition =>
      match executeSql (SelectNoCase tableName idPropertyName) [id] (db s) with
      | inl e => Rejected e
      | inr (rows, _) =>
          match rows with
          | row :: _ =>
              match deserialize row (columnDefinitions tableDefinition) with
              | inr r => Resolved (Some r)
              | inl e => Rejected e
              end
          | [] =>
              if suppressRecordNotFoundError then Resolved None
              else Rejected (ItemDoesNotExist id)
          end
      end
  end.

(** the statements the translator gives for a query: the data statement and,
    when the count is asked for, the COUNT statement *)
Definition getSqlStatementsFromQuery (q : Query.components) : list (sql * list value) :=
  (SelectQuery q, [])
  :: (if Query.includeTotalCount q then [(SelectCount q, [])] else []).

(** [_read(query)] *)
Definition _read (q : Query.components) (s : store) : promise readResult :=
  match getTableDefinition (tableDefinitions s) (Query.table q) with
  | None => Rejected (DefinitionNotFound (Query.table q))
  | Some tableDefinition =>
      let body : transactionBody (list record * option value) := fun db =>
        match getSqlStatementsFromQuery q with
        | [first] =>
            '(rows, db) ← query first.1 first.2 db;
            result ← forEach (fun row => deserialize row (columnDefinitions tableDefinition)) rows;
            inr ((result, None), db)
        | [first; second] =>
            '(rows, db) ← query first.1 first.2 db;
            result ← forEach (fun row => deserialize row (columnDefinitions tableDefinition)) rows;
            '(counts, db) ← query second.1 second.2 db;
            match counts with
            | row :: _ => inr ((result, Some (getProp row "count")), db)
            | [] => inl (TypeError "res.rows.item(0).count")
            end
        | _ => inl UnexpectedNumberOfStatements
        end in
      match (transaction body (db s)).1 with
      | Resolved (result, Some count) =>
          if bool_decide (count = VUndefined) then Resolved (Records result)
          else Resolved (RecordsAndCount result count)
      | Resolved (result, None) => Resolved (Records result)
      | Rejected e => Rejected e
      | Pending => Pending
      end
  end.

(** [read(query)]: a task of the runner of the store that runs [_read];
    [fromTask] tells whether the call is made from inside a task of that
    runner *)
Definition readAs (fromTask : bool) (q : Query.components) (s : store)
    : promise readResult :=
  TaskRunner.run fromTask (_read q s).

(** [read(query)], called by the application *)
Definition read (q : Query.components) (s : store) : promise readResult :=
  readAs false q s.

(** [_deleteUsingQuery(query, callback)]: it is called by the task of [del],
    calls [self.read(query)] and passes the outcome to the callback of that
    task from the handlers of the promise of [read] *)
Definition _deleteUsingQuery (q : Query.components) (s : store)
    : promise unit * store :=
  let q := if (0 <? length (Query.selections q))%nat
           then Query.clearSelections q else q in
  match readAs true q s with
  | Pending => (Pending, s)
  | Rejected e => (Rejected e, s)
  | Resolved result =>
      let result := match result with
                    | Records records => records
                    | RecordsAndCount records _ => records
                    end in
      let tableName := Query.table q in
      match Validate.notNullOrEmpty tableName "Value" with
      | inl e => (Rejected e, s)
      | inr _ =>
          let ids := (fun r => getProp r idPropertyName) <$> result in
          let '(outcome, db') := transaction (_deleteIds tableName ids) (db s) in
          (outcome, setDb s db')
      end
  end.

(** the loop of [del] that validates the ids that are not null *)
Definition validateIds (ids : list value) : throws unit :=
  forEach (fun id =>
    if negb (Extensions.isNull id) then Validate.isValidId id "id" else inr tt) ids;;
  inr tt.

(** [del(tableNameOrQuery, ids)]: [inl tableName] with ids, or [inr query] *)
Definition del (tableNameOrQuery : string + Query.components) (ids : idsArgument)
    (s : store) : promise unit * store :=
  match tableNameOrQuery with
  | inl tableName =>
      match Validate.notNullOrEmpty tableName "tableNameOrQuery" with
      | inl e => (Rejected e, s)
      | inr _ =>
          let ids := match ids with
                     | OneId id => [id]
                     | IdArray ids => ids
                     end in
          let body : transactionBody unit := fun db =>
            validateIds ids;;
            _deleteIds tableName ids db in
          let '(outcome, db') := transaction body (db s) in
          (outcome, setDb s db')
      end
  | inr q => _deleteUsingQuery q s
  end.

(** the body of the transaction of [executeBatch]: the loop over the
    operations *)
Fixpoint batchBody (tableDefinitions : gmap string tableDefinition)
    (operations : list (option operation)) : transactionBody unit :=
  fun db =>
    match operations with
    | [] => inr (tt, db)
    | None :: rest => batchBody tableDefinitions rest db
    | Some op :: rest =>
        Validate.notNullOrEmpty (action op) "Value";;
        Validate.notNullOrEmpty (opTableName op) "Value";;
        '(_, db') ←
          (if bool_decide (JsString.toLowerCase (action op) = "upsert")
           then _upsert tableDefinitions (opTableName op) (opData op) db
           else if bool_decide (JsString.toLowerCase (action op) = "delete")
           then
             if negb (Extensions.isNull (opId op))
             then
               Validate.isValidId (opId op) "id";;
               _deleteIds (opTableName op) [opId op] db
             else inr (tt, db)
           else inl (OperationNotSupported (action op)));
        batchBody tableDefinitions rest db'
    end.

(** [executeBatch(operations)] *)
Definition executeBatch (operations : list (option operation)) (s : store)
    : promise unit * store :=
  let '(outcome, db') := transaction (batchBody (tableDefinitions s) operations) (db s) in
  (outcome, setDb s db').

End WithSerializer.

End SqliteStore.

(** ** The sync context (MobileServiceSyncContext.js) *)

(** "The store can be a custom store provided by the user code": what the
    sync context uses of a store whose state has type [S]. *)
Class LocalStore (S : Type) : Type := {
  storeLookup : string -> value -> option bool -> S -> promise (option record);
  storeExecuteBatch : list (option SqliteStore.operation) -> S -> promise unit * S
}.

(** The operation table manager (sync/operations.js) is not part of the
    sources: [getLoggingOperation(tableName, action, id)] is any function that
    reads the store and resolves with the operation that logs the action, an
    entry of the batch that may be null, or is rejected;
    [initialize(localStore)] prepares the store for the log. *)
Class OperationTableManager (S : Type) : Type := {
  initializeOperationTable : S -> promise unit * S;
  getLoggingOperation :
    string -> string -> value -> S -> promise (option SqliteStore.operation)
}.

#[global] Instance sqliteLocalStore {serializer : SqliteSerializer}
    : LocalStore SqliteStore.store := {
  storeLookup tableName id suppress s :=
    SqliteStore.lookup tableName id (default false suppress) s;
  storeExecuteBatch := SqliteStore.executeBatch
}.

Module SyncContext.
Import SqliteStore.

(** An asynchronous step on the store: the promise it settles and the state
    of the store afterwards; [x ← c; k] is [c.then(function (x) { k })]. *)
Definition async (S A : Type) : Type := S -> promise A * S.

#[global] Instance async_ret {S} : MRet (async S) := fun _ a s => (Resolved a, s).
#[global] Instance async_bind {S} : MBind (async S) := fun _ _ k c s =>
  match c s with
  | (Resolved a, s') => k a s'
  | (Rejected e, s') => (Rejected e, s')
  | (Pending, s') => (Pending, s')
  end.

(** a synchronous block that may throw, run as the first step of a task *)
Definition attempt {S A} (c : throws A) : async S A := fun s =>
  match c with
  | inr a => (Resolved a, s)
  | inl e => (Rejected e, s)
  end.

(** a step that only reads the store *)
Definition reading {S A} (f : S -> promise A) : async S A := fun s => (f s, s).

Section WithStore.
Context {S : Type} {localStore : LocalStore S} {manager : OperationTableManager S}.

(** The variable [store] of the context: [None] until [initialize] has bound
    it, then the store in its current state. *)
Definition context : Type := option S.

(** the state of a task when the context is bound to no store: the steps
    that use the store are not reached *)
Definition onStore {A} (c : async S A) (store : context) : promise A * context :=
  match store with
  | Some s => let '(outcome, s') := c s in (outcome, Some s')
  | None => (Rejected NotInitialized, None)
  end.

(** [initialize(localStore)] *)
Definition initialize (localStore : S) (store : context) : promise unit * context :=
  match initializeOperationTable localStore with
  | (Resolved _, s') => (Resolved tt, Some s')
  | (Rejected e, _) => (Rejected e, store)
  | (Pending, _) => (Pending, store)
  end.

(** the checks at the head of [insert], [update] and [del] *)
Definition validateArguments (tableName : string) (instance : option record)
    (instanceName idName : string) : throws record :=
  Validate.notNullOrEmpty tableName "tableName";;
  match instance with
  | None => inl (NotNullError instanceName)
  | Some instance =>
      Validate.isValidId (getProp instance "id") idName;;
      inr instance
  end.

(** [insert(tableName, instance)] *)
Definition insert (tableName : string) (instance : option record)
    (store : context) : promise record * context :=
  match validateArguments tableName instance "instance" "instance.id" with
  | inl e => (Rejected e, store)
  | inr instance =>
      onStore (
        result ← reading (storeLookup tableName (getProp instance "id") None);
        attempt (if negb (bool_decide (result = None))
                 then inl (ReferenceError "id") else inr tt);;
        loggingOperation ←
          reading (getLoggingOperation tableName "insert" (getProp instance "id"));
        storeExecuteBatch
          [Some {| action := "upsert"; opTableName := tableName;
                   opData := DataRecord instance; opId := VUndefined |};
           loggingOperation];;
        mret instance) store
  end.

(** [update(tableName, instance)] *)
Definition update (tableName : string) (instance : option record)
    (store : context) : promise record * context :=
  match validateArguments tableName instance "instance" "instance.id" with
  | inl e => (Rejected e, store)
  | inr instance =>
      onStore (
        result ← reading (storeLookup tableName (getProp instance "id") None);
        attempt (if bool_decide (result = None)
                 then inl (ReferenceError "id") else inr tt);;
        loggingOperation ←
          reading (getLoggingOperation tableName "update" (getProp instance "id"));
        storeExecuteBatch
          [Some {| action := "upsert"; opTableName := tableName;
                   opData := DataRecord instance; opId := VUndefined |};
           loggingOperation];;
        mret instance) store
  end.

(** [del(tableName, instance)] *)
Definition del (tableName : string) (instance : option record)
    (store : context) : promise unit * context :=
  match validateArguments tableName instance "Value" "id" with
  | inl e => (Rejected e, store)
  | inr instance =>
      onStore (
        loggingOperation ←
          reading (getLoggingOperation tableName "delete" (getProp instance "id"));
        storeExecuteBatch
          [Some {| action := "delete"; opTableName := tableName;
                   opData := DataNull; opId := getProp instance "id" |};
           loggingOperation]) store
  end.

End WithStore.

End SyncContext.

(** ** Items of the backend table (MobileServiceTable.js) *)

Module MobileServiceSystemColumns.
Definition CreatedAt : string := "createdAt".
Definition UpdatedAt : string := "updatedAt".
Definition Version : string := "version".
Definition Deleted : string := "deleted".
End MobileServiceSystemColumns.

Module Table.
Import MobileServiceSystemColumns.

(** [idNames] *)
Definition idNames : list string := ["ID"; "Id"; "id"; "iD"].

(** what the functions of the table throw: the error of [insert] for an id
    member that is set, or an error of Validate.js *)
Inductive tableError : Type :=
| IdMemberAlreadySet
| Invalid (e : error).

(** [removeSystemProperties(instance)]: the copy gets the properties of the
    instance other than the four system columns. The assignment
    [copy[property] = instance[property]] of a property named [__proto__]
    goes to the setter an object inherits, and gives the copy no property. *)
Definition removeSystemProperties (instance : record) : record :=
  filter (fun property : string * value =>
            property.1 <> Version /\ property.1 <> UpdatedAt
            /\ property.1 <> CreatedAt /\ property.1 <> Deleted
            /\ property.1 <> "__proto__")
    instance.

(** A response of the backend: [item] is the object that
    [extensions.fromJson(response.responseText)] gives (Extensions.js is not
    part of the sources, and the parsed object is taken as given), and
    [getResponseHeader] the function of that name, when the response has
    one; it gives [null], [None], for a header that is not there. *)
Record response : Type := {
  item : record;
  getResponseHeader : option (string -> option string)
}.

(** [getItemFromResponse(response)]; [extensions.isNullOrEmpty(eTag)] holds
    of the header that is not there and of the empty string *)
Definition getItemFromResponse (r : response) : record :=
  match getResponseHeader r with
  | Some header =>
      match header "ETag" with
      | Some eTag =>
          if negb (bool_decide (eTag = ""))
          then <[Version := VStr (Etag.getVersionFromEtag eTag)]> (item r)
          else item r
      | None => item r
      end
  | None => item r
  end.

(** Modelled from the spec: Extensions.js is not part of the sources.
    "POST /tables/{name} with JSON body: id must be absent or valid string";
    Validate.notNullOrZero, which throws when [isNullOrZero] holds: "Ensure
    the value is not null, undefined, zero, or empty." *)
Definition isNullOrZero (v : value) : bool :=
  match v with
  | VUndefined | VNull => true
  | VNum n => bool_decide (n = 0%Z)
  | VStr s => bool_decide (s = "")
  | VBool _ => false
  end.

(** the body of the loop of [insert] over [idNames], for one name *)
Definition checkIdMember (instance : record) (idName : string) : tableError + unit :=
  let id := getProp instance idName in
  if negb (isNullOrZero id)
  then
    match id with
    | VStr _ =>
        if negb (bool_decide (idName = "id")) then inl IdMemberAlreadySet
        else
          match Validate.isValidId id "id" with
          | inl e => inl (Invalid e)
          | inr _ => inr tt
          end
    | _ => inl IdMemberAlreadySet
    end
  else inr tt.

(** the loop of [insert] over the names [names] *)
Fixpoint checkIdMembers (instance : record) (names : list string) : tableError + unit :=
  match names with
  | [] => inr tt
  | idName :: rest =>
      match checkIdMember instance idName with
      | inl e => inl e
      | inr _ => checkIdMembers instance rest
      end
  end.

End Table.

(** ** Notions used in the statements *)

(** the rows a lookup of [id] selects: their id equals [id] under NOCASE *)
Definition matching (id : value) (t : Sqlite.table) : list record :=
  List.filter
    (fun row => Sqlite.sqlEqNoCase (getProp row StoreHelper.idPropertyName) id)
    (Sqlite.tableRows t).

(** how a task settles that ends with the batch [operations] and then returns
    [value]: as the batch does *)
Definition afterBatch {S A : Type} {localStore : LocalStore S}
    (operations : list (option SqliteStore.operation)) (value : A) (s : S)
    : promise A * option S :=
  match storeExecuteBatch operations s with
  | (Resolved _, s') => (Resolved value, Some s')
  | (Rejected e, s') => (Rejected e, Some s')
  | (Pending, s') => (Pending, Some s')
  end.


(** the table has an id column, and it is its only primary key *)
Definition idIsPrimaryKey (t : Sqlite.table) : Prop :=
  StoreHelper.idPropertyName ∈ Sqlite.columnNames t
  /\ forall c, c ∈ Sqlite.tableColumns t ->
       (Sqlite.isPrimaryKey c = true <-> Sqlite.columnName c = StoreHelper.idPropertyName).

(** the ids of the rows of a table *)
Definition ids (t : Sqlite.table) : list value :=
  (fun row => getProp row StoreHelper.idPropertyName) <$> Sqlite.tableRows t.

(** the columns of a definition that [addMissingColumns] adds to a table:
    those whose name in lower case is neither the name in lower case of a
    column of the table nor of an inherited property *)
Definition missingColumns (td : StoreHelper.tableDefinition) (t : Sqlite.table)
    : list (string * string) :=
  List.filter
    (fun c : string * string =>
       negb (SqliteStore.isExistingColumn
               (list_to_set (JsString.toLowerCase <$> Sqlite.columnNames t))
               (JsString.toLowerCase c.1)))
    (map_to_list (StoreHelper.columnDefinitions td)).

(** the column that ALTER TABLE ADD COLUMN adds *)
Definition addedColumn (c : string * string) : Sqlite.column :=
  {| Sqlite.columnName := c.1; Sqlite.declaredType := c.2;
     Sqlite.isPrimaryKey := false |}.

(** a table after columns have been added: they come after its columns and
    hold NULL in every row *)
Definition withColumns (t : Sqlite.table) (added : list (string * string))
    : Sqlite.table :=
  {| Sqlite.tableColumns := Sqlite.tableColumns t ++ (addedColumn <$> added);
     Sqlite.tableRows :=
       (fun row : record => foldl (fun row c => <[c.1 := VNull]> row) row added)
         <$> Sqlite.tableRows t |}.


(** the names of the columns of a definition are distinct up to case *)
Definition distinctColumns (td : StoreHelper.tableDefinition) : Prop :=
  NoDup (JsString.toLowerCase <$> (map_to_list (StoreHelper.columnDefinitions td)).*1).


(** what relates a column of a definition and its clause in CREATE TABLE *)
Definition clauseOf {serializer : SqliteSerializer} (c : string * string)
    (clause : Sqlite.column) : Prop :=
  Sqlite.columnName clause = c.1
  /\ getSqliteType c.2 = inr (Sqlite.declaredType clause)
  /\ Sqlite.isPrimaryKey clause = StoreHelper.isId c.1.

(** the array of ids [del] works on: a single id is an array of one *)
Definition idArray (ids : SqliteStore.idsArgument) : list value :=
  match ids with
  | SqliteStore.OneId id => [id]
  | SqliteStore.IdArray ids => ids
  end.

(** how a batch settles after a first part has left the store [s1]: as its
    second part does, but a failure undoes the first part as well *)
Definition thenBatch {serializer : SqliteSerializer}
    (operations : list (option SqliteStore.operation))
    (s : SqliteStore.store) (first : promise unit * SqliteStore.store)
    : promise unit * SqliteStore.store :=
  match first with
  | (Resolved _, s1) =>
      match SqliteStore.executeBatch operations s1 with
      | (Resolved _, s2) => (Resolved tt, s2)
      | (Rejected e, _) => (Rejected e, s)
      | (Pending, _) => (Pending, s)
      end
  | (Rejected e, _) => (Rejected e, s)
  | (Pending, _) => (Pending, s)
  end.

(** a query with the flag that asks for the total count set to [flag] *)
Definition withTotalCount (flag : bool) (q : Query.components) : Query.components :=
  {| Query.table := Query.table q; Query.selections := Query.selections q;
     Query.filters := Query.filters q; Query.skip := Query.skip q;
     Query.take := Query.take q; Query.includeTotalCount := flag |}.

(** two databases have the same tables with the same columns *)
Definition sameSchema (d d' : Sqlite.database) : Prop :=
  forall tableName, Sqlite.tableColumns <$> d' !! tableName
                    = Sqlite.tableColumns <$> d !! tableName.

(** a transaction body that changes rows only *)
Definition keepsSchema {A} (body : Sqlite.transactionBody A) : Prop :=
  forall d a d', body d = inr (a, d') -> sameSchema d d'.



(** a statement that inserts, updates or deletes rows *)
Definition isDataStatement (statement : Sqlite.sql) : bool :=
  match statement with
  | Sqlite.InsertOrIgnore _ _ | Sqlite.Update _ _ _ | Sqlite.DeleteIn _ _ _ => true
  | _ => false
  end.

(** every table of [d] is a table of [d'], with the same columns and with
    rows that [R] relates to its rows *)
Definition tablesRelated (R : list record -> list record -> Prop)
    (d d' : Sqlite.database) : Prop :=
  forall tableName t,
    d !! tableName = Some t ->
    exists t', d' !! tableName = Some t'
               /\ Sqlite.tableColumns t' = Sqlite.tableColumns t
               /\ R (Sqlite.tableRows t) (Sqlite.tableRows t').




(** the id is of the kind of the id column of the table: "integer and string
    id domains do not mix within a table" *)
Definition typedId (t : Sqlite.table) (id : value) : Prop :=
  forall c, c ∈ Sqlite.tableColumns t ->
    Sqlite.columnName c = StoreHelper.idPropertyName ->
    Sqlite.fits (Sqlite.affinityOf (Sqlite.declaredType c)) id = true.


(** no table of the database has the name, whatever the case of A-Z in it *)
Definition noTableNamed (name : string) (d : Sqlite.database) : Prop :=
  forall other, is_Some (d !! other) ->
    JsString.toLowerCase other <> JsString.toLowerCase name.

(** how a task of the sync context settles on the SQLite store that applies
    a data mutation and then the logging operation in one transaction, and
    returns [value]: both are applied, or the store is as it was *)
Definition bothOrNeither {serializer : SqliteSerializer} {A : Type} (value : A)
    (loggingOperation : option SqliteStore.operation) (s : SqliteStore.store)
    (mutation : promise unit * SqliteStore.store)
    : promise A * option SqliteStore.store :=
  match thenBatch [loggingOperation] s mutation with
  | (Resolved _, s') => (Resolved value, Some s')
  | (Rejected e, _) => (Rejected e, Some s)
  | (Pending, _) => (Pending, Some s)
  end.

(** ** Sample data for the examples *)

Module Samples.
Import StoreHelper Sqlite SqliteStore.

(** A serializer that stores records of scalars as they are; the SQLite type
    of a column type follows the column type domain of the specification. *)
Definition plainSerializer : SqliteSerializer := {|
  serialize r _ := inr r;
  deserialize r _ := inr r;
  getSqliteType ty :=
    if bool_decide (ty ∈ ["object"; "array"; "string"; "text"]) then inr "TEXT"
    else if bool_decide (ty ∈ ["integer"; "int"; "boolean"; "bool"; "date"])
    then inr "INTEGER"
    else if bool_decide (ty ∈ ["float"; "real"]) then inr "REAL"
    else inl (SerializationError "column type")
|}.

(** An operation table manager whose logging operation upserts one entry
    into a table named operations. *)
Definition sampleManager : OperationTableManager store := {|
  initializeOperationTable s := (Resolved tt, s);
  getLoggingOperation tableName action id s :=
    Resolved (Some {| action := "upsert"; opTableName := "operations";
                      opData := DataRecord {[ "id" := id;
                                              "tableName" := VStr tableName;
                                              "action" := VStr action ]};
                      opId := VUndefined |})
|}.

(** An operation table manager whose logging operation goes to a table
    that is not defined. *)
Definition brokenManager : OperationTableManager store := {|
  initializeOperationTable s := (Resolved tt, s);
  getLoggingOperation tableName action id s :=
    Resolved (Some {| action := "upsert"; opTableName := "nowhere";
                      opData := DataRecord {[ "id" := id ]};
                      opId := VUndefined |})
|}.

(** A custom store: the SQLite store, but its lookup resolves with
    [undefined] for a record that is not there. *)
Definition lenientStore : LocalStore store := {|
  storeLookup tableName id _ s :=
    lookup (serializer := plainSerializer) tableName id true s;
  storeExecuteBatch := executeBatch (serializer := plainSerializer)
|}.

(** [{ name: 't', columnDefinitions: { id: 'string', v: 'integer' } }] *)
Definition todo : tableDefinition :=
  {| name := "t"; columnDefinitions := {[ "id" := "string"; "v" := "integer" ]} |}.


Definition operations : tableDefinition :=
  {| name := "operations";
     columnDefinitions := {[ "id" := "string"; "tableName" := "string";
                             "action" := "string" ]} |}.

Definition todoColumns : list column :=
  [ {| columnName := "id"; declaredType := "TEXT"; isPrimaryKey := true |};
    {| columnName := "v"; declaredType := "INTEGER"; isPrimaryKey := false |} ].

Definition operationsColumns : list column :=
  [ {| columnName := "id"; declaredType := "TEXT"; isPrimaryKey := true |};
    {| columnName := "tableName"; declaredType := "TEXT"; isPrimaryKey := false |};
    {| columnName := "action"; declaredType := "TEXT"; isPrimaryKey := false |} ].

(** a store in which both tables are defined, table t holding the given rows *)
Definition storeWith (rows : list record) : store :=
  {| tableDefinitions := {[ "t" := todo; "operations" := operations ]};
     db := {[ "t" := {| tableColumns := todoColumns; tableRows := rows |};
              "operations" := {| tableColumns := operationsColumns; tableRows := [] |} ]} |}.

Definition emptyStore : store := {| tableDefinitions := ∅; db := ∅ |}.




(** [{ id: 'a', v: 5 }] *)
Definition rowA5 : record := {[ "id" := VStr "a"; "v" := VNum 5 ]}.

(** [{ id: 'a', v: 1 }] *)
Definition rowA : record := {[ "id" := VStr "a"; "v" := VNum 1 ]}.

(** [{ id: 'b', v: 2 }] *)
Definition rowB : record := {[ "id" := VStr "b"; "v" := VNum 2 ]}.

(** the query on table t for the rows with v = 1 that selects the column v *)
Definition selectV1 : Query.components :=
  {| Query.table := "t"; Query.selections := ["v"];
     Query.filters := fun row => bool_decide (getProp row "v" = VNum 1);
     Query.skip := 0; Query.take := None; Query.includeTotalCount := false |}.

(** [{ id: 'A', v: 5 }] *)
Definition rowUpperA : record := {[ "id" := VStr "A"; "v" := VNum 5 ]}.

(** a definition with the columns id, c1, ..., c999 *)
Definition wide : tableDefinition :=
  {| name := "wide";
     columnDefinitions :=
       list_to_map (("id", "string")
                    :: ((fun i => ("c" +:+ pretty i, "integer")) <$> seq 1 999)) |}.

End Samples.

Module StoreSamples.
Import StoreHelper Sqlite SqliteStore Samples.

(** table t of the samples with the rows [{ id: 'a', v: 1 }] and
    [{ id: 'b', v: 2 }] *)
Definition tableAB : table := {| tableColumns := todoColumns; tableRows := [rowA; rowB] |}.


(** [{ action: 'UPSERT', tableName: 't', data: { id: 'a', v: 1 } }] *)
Definition upsertA : operation :=
  {| action := "UPSERT"; opTableName := "t"; opData := DataRecord rowA;
     opId := VUndefined |}.

(** [{ action: 'insert', tableName: 't', data: { id: 'b', v: 2 } }] *)
Definition insertB : operation :=
  {| action := "insert"; opTableName := "t"; opData := DataRecord rowB;
     opId := VUndefined |}.

(** the query on table t for the rows with v = 1, with the total count *)
Definition countV1 : Query.components :=
  {| Query.table := "t"; Query.selections := [];
     Query.filters := fun row => bool_decide (getProp row "v" = VNum 1);
     Query.skip := 0; Query.take := Some 1; Query.includeTotalCount := true |}.

End StoreSamples.

Module TableSamples.
Import Table.

(** the response headers [ETag: "v1"] *)
Definition etagV1 (header : string) : option string :=
  if bool_decide (header = "ETag") then Some (Etag.quoted "v1") else None.

(** [{ id: 'a', text: 'x', version: 'v0' }] *)
Definition itemA : record :=
  {[ "id" := VStr "a"; "text" := VStr "x"; "version" := VStr "v0" ]}.

(** [{ id: 7 }] *)
Definition numericId : record := {[ "id" := VNum 7 ]}.

(** [{ id: 'a', Id: 0 }] *)
Definition stringId : record := {[ "id" := VStr "a"; "Id" := VNum 0 ]}.

End TableSamples.

(** * Properties *)

(** ** ETag and version *)

Section EtagRoundTrip.
Import JsString Etag.

Lemma escapeQuotes_other c s :
  Ascii.eqb c dquote = false -> escapeQuotes (String c s) = String c (escapeQuotes s).
Proof. intros Hc. simpl. now rewrite Hc. Qed.

Lemma unescapeQuotes_other c s :
  Ascii.eqb c backslash = false ->
  unescapeQuotes (String c s) = String c (unescapeQuotes s).
Proof.
  intros Hc. destruct s as [|d s']; [reflexivity|].
  cbn [unescapeQuotes]. now rewrite Hc.
Qed.

Lemma unescapeQuotes_backslash_quote s :
  unescapeQuotes (String backslash (String dquote s)) = String dquote (unescapeQuotes s).
Proof. reflexivity. Qed.

Lemma unescapeQuotes_backslash_other d s :
  Ascii.eqb d dquote = false ->
  unescapeQuotes (String backslash (String d s))
  = String backslash (unescapeQuotes (String d s)).
Proof.
  intros Hd. cbn [unescapeQuotes]. rewrite Hd, andb_false_r. reflexivity.
Qed.

(** escaping undoes unescaping on a string whose quotes all follow a
    backslash, also when the string itself follows a backslash *)
Lemma escape_unescape s :
  (quotesEscaped false s = true -> escapeQuotes (unescapeQuotes s) = s)
  /\ (quotesEscaped true s = true ->
      escapeQuotes (unescapeQuotes (String backslash s)) = String backslash s).
Proof.
  induction s as [|c r [IHplain IHafter]].
  - split; reflexivity.
  - assert (Hplain : quotesEscaped false (String c r) = true ->
                     escapeQuotes (unescapeQuotes (String c r)) = String c r).
    { cbn [quotesEscaped]. destruct (Ascii.eqb c dquote) eqn:Hq; [discriminate|].
      destruct (Ascii.eqb c backslash) eqn:Hb.
      - apply Ascii.eqb_eq in Hb. subst c. exact IHafter.
      - intros Hr. rewrite unescapeQuotes_other by assumption.
        rewrite escapeQuotes_other by assumption. now rewrite IHplain. }
    split; [exact Hplain|].
    cbn [quotesEscaped]. destruct (Ascii.eqb c dquote) eqn:Hq.
    + apply Ascii.eqb_eq in Hq. subst c. cbn [andb]. intros Hr.
      rewrite unescapeQuotes_backslash_quote. cbn [escapeQuotes].
      change (Ascii.eqb dquote dquote) with true. cbv iota.
      now rewrite IHplain.
    + intros Hr. rewrite unescapeQuotes_backslash_other by assumption.
      rewrite escapeQuotes_other by reflexivity.
      f_equal. apply Hplain. cbn [quotesEscaped]. now rewrite Hq.
Qed.

Lemma length_snoc s c : String.length (s +:+ String c EmptyString) = S (String.length s).
Proof. induction s as [|d s IH]; simpl; [reflexivity|now rewrite IH]. Qed.

Lemma length_quoted s : length (quoted s) = S (S (length s)).
Proof. unfold quoted, length. cbn [String.length]. now rewrite length_snoc. Qed.

Lemma get_last s c : String.get (String.length s) (s +:+ String c EmptyString) = Some c.
Proof. induction s as [|d s IH]; [reflexivity|exact IH]. Qed.

Lemma substring_prefix s t : String.substring 0 (String.length s) (s +:+ t) = s.
Proof. induction s as [|d s IH]; simpl; [now destruct t| now rewrite IH]. Qed.

Lemma getVersionFromEtag_quoted s : getVersionFromEtag (quoted s) = unescapeQuotes s.
Proof.
  unfold getVersionFromEtag. rewrite length_quoted.
  unfold charAt, substr, quoted. cbn [String.get Nat.ltb Nat.leb].
  replace (S (S (length s)) - 1) with (S (length s)) by lia.
  replace (S (S (length s)) - 2) with (length s) by lia.
  cbn [String.get String.substring]. unfold length.
  rewrite get_last, substring_prefix.
  rewrite !bool_decide_eq_true_2 by reflexivity.
  destruct (String.length s); reflexivity.
Qed.


Lemma quotesEscaped_escapeQuotes v b : quotesEscaped b (escapeQuotes v) = true.
Proof.
  revert b. induction v as [|c r IH]; intros b; [reflexivity|].
  cbn [escapeQuotes]. destruct (Ascii.eqb c dquote) eqn:Hq.
  - cbn. apply IH.
  - cbn [quotesEscaped]. rewrite Hq. apply IH.
Qed.

(** C3, as amended: for every ETag that is a string [s] between two double
    quotes, every double quote inside [s] directly following a backslash,
    converting the ETag to a version and the version back to an ETag gives the
    ETag again. *)
Theorem etag_roundtrip_quoted (s : string) :
  quotesEscaped false s = true ->
  getEtagFromVersion (getVersionFromEtag (quoted s)) = quoted s.
Proof.
  intros Hs. rewrite getVersionFromEtag_quoted. unfold getEtagFromVersion, quoted.
  now rewrite (proj1 (escape_unescape s) Hs).
Qed.

Lemma etag_roundtrip_quoted_witness :
  quotesEscaped false escapedSample = true
  /\ getEtagFromVersion (getVersionFromEtag (quoted escapedSample))
     = quoted escapedSample.
Proof.
  split; [reflexivity | apply (etag_roundtrip_quoted escapedSample); reflexivity].
Defined.

(** C3, the claim as stated fails: the weak entity tag W/"abc" is not
    surrounded by double quotes, so nothing is stripped, and the way back
    escapes its quotes and wraps it in new ones; and a double quote inside
    the quotes that follows no backslash comes back with one. *)
Lemma etag_roundtrip_fails_on_weak_etag :
  getEtagFromVersion (getVersionFromEtag weakEtag) <> weakEtag
  /\ getEtagFromVersion (getVersionFromEtag (quoted bareQuoteSample))
     <> quoted bareQuoteSample.
Proof. split; vm_compute; discriminate. Qed.

(** The round trip holds for no other ETag: what comes back is always
    between double quotes with its inner quotes escaped. *)
Lemma etag_roundtrip_only_quoted (etag : string) :
  getEtagFromVersion (getVersionFromEtag etag) = etag ->
  exists s, etag = quoted s /\ quotesEscaped false s = true.
Proof.
  intros Hround. exists (escapeQuotes (getVersionFromEtag etag)). split.
  - symmetry. exact Hround.
  - apply quotesEscaped_escapeQuotes.
Qed.

End EtagRoundTrip.

(** ** Lookup in the store *)

Section Lookup.
Import StoreHelper Sqlite SqliteStore.
Context {serializer : SqliteSerializer}.

Lemma notNullOrEmpty_ok (s name : string) :
  s <> "" -> Validate.notNullOrEmpty s name = inr tt.
Proof. intros Hs. unfold Validate.notNullOrEmpty. now rewrite bool_decide_eq_false_2. Qed.

Lemma isValidId_ok (v : value) (name : string) :
  Extensions.isValidId v = true -> Validate.isValidId v name = inr tt.
Proof. intros Hv. unfold Validate.isValidId. now rewrite Hv. Qed.

(** for a valid id the comparison of the lookup is equality of numbers and
    equality of strings up to the case of A-Z *)
Lemma sqlEqNoCase_valid (v id : value) :
  Extensions.isValidId id = true ->
  sqlEqNoCase v id = true <->
  (exists a b, v = VStr a /\ id = VStr b
               /\ JsString.toLowerCase a = JsString.toLowerCase b)
  \/ (exists n, v = VNum n /\ id = VNum n).
Proof.
  intros Hid. unfold sqlEqNoCase, sqlEq.
  destruct id as [| |b|n|b]; try discriminate;
    destruct v as [| |c|m|a]; cbn; rewrite ?bool_decide_eq_true;
    (split;
     [ intros Hm; try discriminate; try (inversion Hm; fail);
       try (right; eexists; split; [reflexivity|congruence]);
       try (left; do 2 eexists; repeat split; congruence)
     | intros [(a' & b' & Ha & Hb & Hl)|(k & Hk & Hn)]; congruence ]).
Qed.

(** C6: [lookup] of a valid id on a defined table, the id being of the kind
    of the id column of the table (text for a text column, a number for a
    number column), resolves with the deserialized record of the first row
    whose id equals the given id up to the case of A-Z (NOCASE); when no row
    matches it resolves with [undefined] if [suppressRecordNotFoundError] is
    true and is rejected with the error that the item does not exist
    otherwise. The rows that match are those whose id is the same number, or
    text equal to the text given up to the case of A-Z. *)
Theorem lookup_outcomes (tableName : string) (id : value) (s : store)
    (td : tableDefinition) (t : table) :
  isBracketName tableName = true ->
  Extensions.isValidId id = true ->
  tableDefinitions s !! tableName = Some td ->
  db s !! tableName = Some t ->
  idPropertyName ∈ columnNames t ->
  typedId t id ->
  (forall row rest suppress,
      matching id t = row :: rest ->
      lookup tableName id suppress s
      = match deserialize row (columnDefinitions td) with
        | inr r => Resolved (Some r)
        | inl e => Rejected e
        end)
  /\ (matching id t = [] -> lookup tableName id true s = Resolved None)
  /\ (matching id t = [] ->
      lookup tableName id false s = Rejected (ItemDoesNotExist id))
  /\ (forall row, row ∈ matching id t <->
        row ∈ tableRows t
        /\ ((exists a b, getProp row idPropertyName = VStr a /\ id = VStr b
                         /\ JsString.toLowerCase a = JsString.toLowerCase b)
            \/ (exists n, getProp row idPropertyName = VNum n /\ id = VNum n))).
Proof.
  intros Hbracket Hid Htd Ht Hcol _.
  assert (Hname : tableName <> "").
  { intros ->. discriminate. }
  assert (Hrun : forall suppress,
    lookup tableName id suppress s
    = match matching id t with
      | row :: _ =>
          match deserialize row (columnDefinitions td) with
          | inr r => Resolved (Some r)
          | inl e => Rejected e
          end
      | [] => if suppress then Resolved None else Rejected (ItemDoesNotExist id)
      end).
  { intros suppress. unfold lookup.
    rewrite (notNullOrEmpty_ok _ _ Hname), (isValidId_ok _ _ Hid).
    unfold getTableDefinition. rewrite Htd. cbn.
    unfold getTable. rewrite Ht. cbn.
    unfold hasColumn. rewrite (bool_decide_eq_true_2 _ Hcol). reflexivity. }
  split; [|split; [|split]].
  - intros row rest suppress Hm. now rewrite Hrun, Hm.
  - intros Hm. now rewrite Hrun, Hm.
  - intros Hm. now rewrite Hrun, Hm.
  - intros row. unfold matching.
    rewrite !list_elem_of_In, filter_In, (sqlEqNoCase_valid _ _ Hid). reflexivity.
Qed.

End Lookup.

Section LookupExamples.
Import StoreHelper Sqlite SqliteStore Samples.

Lemma todo_typedId (rows : list record) (id : string) :
  typedId {| tableColumns := todoColumns; tableRows := rows |} (VStr id).
Proof.
  intros c Hc Hname. cbn [tableColumns] in Hc.
  apply elem_of_cons in Hc as [->|Hc]; [reflexivity|].
  apply list_elem_of_singleton in Hc as ->. discriminate.
Qed.

Lemma lookup_outcomes_witness :
  isBracketName "t" = true
  /\ Extensions.isValidId (VStr "A") = true
  /\ tableDefinitions (storeWith [rowA]) !! "t" = Some todo
  /\ db (storeWith [rowA]) !! "t"
     = Some {| tableColumns := todoColumns; tableRows := [rowA] |}
  /\ idPropertyName ∈ columnNames {| tableColumns := todoColumns; tableRows := [rowA] |}
  /\ typedId {| tableColumns := todoColumns; tableRows := [rowA] |} (VStr "A")
  /\ lookup (serializer := plainSerializer) "t" (VStr "A") false (storeWith [rowA])
     = Resolved (Some rowA)
  /\ lookup (serializer := plainSerializer) "t" (VStr "b") true (storeWith [rowA])
     = Resolved None
  /\ lookup (serializer := plainSerializer) "t" (VStr "b") false (storeWith [rowA])
     = Rejected (ItemDoesNotExist (VStr "b")).
Proof.
  assert (Hdb : db (storeWith [rowA]) !! "t"
                = Some {| tableColumns := todoColumns; tableRows := [rowA] |})
    by reflexivity.
  assert (Hcol : idPropertyName ∈ columnNames {| tableColumns := todoColumns; tableRows := [rowA] |})
    by (vm_compute; left).
  split; [reflexivity|]. split; [reflexivity|]. split; [reflexivity|].
  split; [exact Hdb|]. split; [exact Hcol|]. split; [apply todo_typedId|].
  split; [|split].
  - apply (proj1 (lookup_outcomes (serializer := plainSerializer) "t" (VStr "A")
                    (storeWith [rowA]) todo _ eq_refl eq_refl eq_refl Hdb Hcol
                    (todo_typedId [rowA] "A"))
             rowA [] false).
    reflexivity.
  - apply (proj1 (proj2 (lookup_outcomes (serializer := plainSerializer) "t" (VStr "b")
                    (storeWith [rowA]) todo _ eq_refl eq_refl eq_refl Hdb Hcol
                    (todo_typedId [rowA] "b")))).
    reflexivity.
  - apply (proj1 (proj2 (proj2 (lookup_outcomes (serializer := plainSerializer) "t" (VStr "b")
                    (storeWith [rowA]) todo _ eq_refl eq_refl eq_refl Hdb Hcol
                    (todo_typedId [rowA] "b"))))).
    reflexivity.
Defined.

End LookupExamples.

(** ** Local operations of the sync context *)

Section SyncContextOnAnyStore.
Import SqliteStore SyncContext.
Context {S : Type} {localStore : LocalStore S} {manager : OperationTableManager S}.

Lemma validateArguments_inr tableName (instance : record) instanceName idName i :
  validateArguments tableName (Some instance) instanceName idName = inr i ->
  i = instance.
Proof.
  unfold validateArguments.
  destruct (Validate.notNullOrEmpty _ _); [discriminate|]. cbn.
  destruct (Validate.isValidId _ _); [discriminate|]. cbn. congruence.
Qed.

Lemma validateArguments_ok tableName (instance : record) instanceName idName :
  tableName <> "" ->
  Extensions.isValidId (getProp instance "id") = true ->
  validateArguments tableName (Some instance) instanceName idName = inr instance.
Proof.
  intros Hname Hid. unfold validateArguments, Validate.notNullOrEmpty, Validate.isValidId.
  rewrite bool_decide_eq_false_2 by assumption. cbn. now rewrite Hid.
Qed.

Lemma validateArguments_valid tableName (instance : option record) instanceName idName i :
  validateArguments tableName instance instanceName idName = inr i ->
  tableName <> "" /\ instance = Some i
  /\ Extensions.isValidId (getProp i "id") = true.
Proof.
  unfold validateArguments, Validate.notNullOrEmpty, Validate.isValidId.
  case_bool_decide as Hname; [discriminate|]. cbn.
  destruct instance as [instance|]; [|discriminate].
  destruct (Extensions.isValidId (getProp instance "id")) eqn:Hid; [|discriminate].
  cbn. intros [= <-]. auto.
Qed.

(** the task of [insert] after its checks: the lookup, the check of its
    result, the logging operation and the batch *)
Lemma insert_run tableName (instance : record) (s : S) :
  tableName <> "" ->
  Extensions.isValidId (getProp instance "id") = true ->
  insert tableName (Some instance) (Some s)
  = match storeLookup tableName (getProp instance "id") None s with
    | Resolved None =>
        match getLoggingOperation tableName "insert" (getProp instance "id") s with
        | Resolved loggingOperation =>
            afterBatch
              [Some {| action := "upsert"; opTableName := tableName;
                       opData := DataRecord instance; opId := VUndefined |};
               loggingOperation] instance s
        | Rejected e => (Rejected e, Some s)
        | Pending => (Pending, Some s)
        end
    | Resolved (Some _) => (Rejected (ReferenceError "id"), Some s)
    | Rejected e => (Rejected e, Some s)
    | Pending => (Pending, Some s)
    end.
Proof.
  intros Hname Hid. unfold insert.
  rewrite (validateArguments_ok _ _ _ _ Hname Hid).
  cbn. unfold mbind, async_bind, reading, afterBatch. cbn.
  destruct (storeLookup _ _ _ _) as [[found|]|e|]; cbn; try reflexivity.
  destruct (getLoggingOperation _ _ _ _) as [loggingOperation|e|]; cbn; try reflexivity.
  destruct (storeExecuteBatch _ _) as [[[]|e|] s']; reflexivity.
Qed.

(** the task of [update] after its checks *)
Lemma update_run tableName (instance : record) (s : S) :
  tableName <> "" ->
  Extensions.isValidId (getProp instance "id") = true ->
  update tableName (Some instance) (Some s)
  = match storeLookup tableName (getProp instance "id") None s with
    | Resolved (Some _) =>
        match getLoggingOperation tableName "update" (getProp instance "id") s with
        | Resolved loggingOperation =>
            afterBatch
              [Some {| action := "upsert"; opTableName := tableName;
                       opData := DataRecord instance; opId := VUndefined |};
               loggingOperation] instance s
        | Rejected e => (Rejected e, Some s)
        | Pending => (Pending, Some s)
        end
    | Resolved None => (Rejected (ReferenceError "id"), Some s)
    | Rejected e => (Rejected e, Some s)
    | Pending => (Pending, Some s)
    end.
Proof.
  intros Hname Hid. unfold update.
  rewrite (validateArguments_ok _ _ _ _ Hname Hid).
  cbn. unfold mbind, async_bind, reading, afterBatch. cbn.
  destruct (storeLookup _ _ _ _) as [[found|]|e|]; cbn; try reflexivity.
  destruct (getLoggingOperation _ _ _ _) as [loggingOperation|e|]; cbn; try reflexivity.
  destruct (storeExecuteBatch _ _) as [[[]|e|] s']; reflexivity.
Qed.

(** the task of [del] after its checks: there is no lookup *)
Lemma del_run_task tableName (instance : record) (s : S) :
  tableName <> "" ->
  Extensions.isValidId (getProp instance "id") = true ->
  del tableName (Some instance) (Some s)
  = match getLoggingOperation tableName "delete" (getProp instance "id") s with
    | Resolved loggingOperation =>
        afterBatch
          [Some {| action := "delete"; opTableName := tableName;
                   opData := DataNull; opId := getProp instance "id" |};
           loggingOperation] tt s
    | Rejected e => (Rejected e, Some s)
    | Pending => (Pending, Some s)
    end.
Proof.
  intros Hname Hid. unfold del.
  rewrite (validateArguments_ok _ _ _ _ Hname Hid).
  cbn. unfold mbind, async_bind, reading, afterBatch. cbn.
  destruct (getLoggingOperation _ _ _ _) as [loggingOperation|e|]; cbn; try reflexivity.
  destruct (storeExecuteBatch _ _) as [[[]|e|] s']; reflexivity.
Qed.

End SyncContextOnAnyStore.

(** ** Local operations of the sync context on the SQLite store *)

Section SyncContextOnSqlite.
Import StoreHelper Sqlite SqliteStore SyncContext.
Context {serializer : SqliteSerializer} {manager : OperationTableManager store}.

Lemma setDb_same (s : store) : setDb s (db s) = s.
Proof. now destruct s. Qed.

Lemma transaction_cases {A} (body : transactionBody A) (d : database) :
  (exists e, body d = inl e /\ transaction body d = (Rejected e, d))
  \/ (exists a d', body d = inr (a, d') /\ transaction body d = (Resolved a, d')).
Proof.
  unfold transaction. destruct (body d) as [e|[a d']]; [left|right]; eauto.
Qed.

(** [executeBatch] is one transaction: it resolves with the state in which
    the whole loop has run, or is rejected and leaves the store as it was *)
Lemma executeBatch_cases (operations : list (option operation)) (s : store) :
  (exists e, executeBatch operations s = (Rejected e, s))
  \/ (exists db', batchBody (tableDefinitions s) operations (db s) = inr (tt, db')
                 /\ executeBatch operations s = (Resolved tt, setDb s db')).
Proof.
  unfold executeBatch.
  destruct (transaction_cases (batchBody (tableDefinitions s) operations) (db s))
    as [(e & _ & ->)|([] & db' & Hbody & ->)].
  - left. exists e. now rewrite setDb_same.
  - right. now exists db'.
Qed.

(** null entries of the batch are skipped *)
Lemma batchBody_skips_null defs (operations : list (option operation)) d :
  batchBody defs operations d
  = batchBody defs (Some <$> omap (fun op => op) operations) d.
Proof.
  revert d. induction operations as [|[op|] rest IH]; intros d; [reflexivity| |].
  - replace (Some <$> omap (fun op => op) (Some op :: rest))
      with (Some op :: (Some <$> omap (fun op => op) rest)) by reflexivity.
    cbn [batchBody].
    destruct (Validate.notNullOrEmpty (action op) "Value"); [reflexivity|]. cbn.
    destruct (Validate.notNullOrEmpty (opTableName op) "Value"); [reflexivity|]. cbn.
    match goal with |- context [mbind _ ?c] => destruct c as [e|[[] d']] end;
      [reflexivity|]. cbn. apply IH.
  - replace (Some <$> omap (fun op => op) (None :: rest))
      with (Some <$> omap (fun op => op) rest) by reflexivity.
    cbn [batchBody]. apply IH.
Qed.

(** with the third argument of [lookup] left out, a missing row is an error *)
Lemma lookup_not_suppressed_not_undefined tableName id (s : store) :
  lookup tableName id false s <> Resolved None.
Proof.
  unfold lookup.
  destruct (_ ;; _ ;; _) as [e|td]; [discriminate|].
  destruct (executeSql _ _ _) as [e|[rows d]]; [discriminate|].
  destruct rows as [|row rest]; [discriminate|].
  destruct (deserialize _ _); discriminate.
Qed.

(** the promise of [lookup] settles *)
Lemma lookup_settles tableName id suppress (s : store) :
  lookup tableName id suppress s <> Pending.
Proof.
  unfold lookup.
  destruct (_ ;; _ ;; _) as [e|td]; [discriminate|].
  destruct (executeSql _ _ _) as [e|[rows d]]; [discriminate|].
  destruct rows as [|row rest]; [destruct suppress; discriminate|].
  destruct (deserialize _ _); discriminate.
Qed.

(** [insert] on the SQLite store is rejected whatever it is given, and
    changes nothing: the lookup is rejected when it finds no row, and the
    check after it throws when it finds one *)
Lemma insert_is_rejected tableName instance (store : context) :
  exists e, insert tableName instance store = (Rejected e, store).
Proof.
  unfold insert. destruct (validateArguments _ _ _ _) as [e|i]; [eauto|].
  destruct store as [s|]; [|cbn; eauto]. cbn.
  unfold mbind, async_bind, reading. cbn.
  destruct (lookup tableName (getProp i "id") false s) as [[r|]|e|] eqn:Hl; cbn; eauto.
  - now apply lookup_not_suppressed_not_undefined in Hl.
  - now apply lookup_settles in Hl.
Qed.

(** C1, the code at a record that is not in the table: table t is defined and
    empty, and [insert('t', {id: 'a', v: 1})] is rejected with the error of
    the lookup, "Item with id a does not exist", where the claim has it
    write the record and its log entry. [insert] calls [store.lookup] without
    [suppressRecordNotFoundError]. *)
Theorem insert_of_new_record_is_rejected :
  insert "t" (Some Samples.rowA) (Some (Samples.storeWith []))
  = (Rejected (ItemDoesNotExist (VStr "a")), Some (Samples.storeWith [])).
Proof. reflexivity. Qed.

End SyncContextOnSqlite.

Section SyncContextExamples.
Import StoreHelper Sqlite SqliteStore SyncContext Samples.

(** C4, the code at an id that no row has: table t holds the row with id a,
    and [update('t', {id: 'A', v: 5})] is not rejected. [update] looks the
    id up with [store.lookup], which compares ids without regard to case
    and finds the row a, whereas INSERT OR IGNORE and UPDATE compare them
    exactly ("TODO: Add support for case insensitive ID" at [idPropertyName]):
    the batch leaves the row a as it is, inserts a second row with id A and
    logs an update of A, where the claim has the update of an id that is not
    in the table rejected and nothing changed. *)
Lemma update_of_absent_id_resolves :
  (forall row, row ∈ [rowA] -> getProp row "id" <> getProp rowUpperA "id")
  /\ update (localStore := sqliteLocalStore (serializer := plainSerializer))
       (manager := sampleManager) "t" (Some rowUpperA) (Some (storeWith [rowA]))
     = (Resolved rowUpperA,
        Some {| tableDefinitions := tableDefinitions (storeWith [rowA]);
                db := {[ "t" := {| tableColumns := todoColumns;
                                   tableRows := [rowA; rowUpperA] |};
                         "operations" :=
                           {| tableColumns := operationsColumns;
                              tableRows := [ {[ "id" := VStr "A";
                                                "tableName" := VStr "t";
                                                "action" := VStr "update" ]} ] |} ]} |}).
Proof.
  split.
  - intros row Hrow. apply list_elem_of_singleton in Hrow as ->. discriminate.
  - vm_compute. reflexivity.
Qed.

(** an update writes the row and the log entry together *)
Example update_writes_row_and_log_entry :
  update (localStore := sqliteLocalStore (serializer := plainSerializer))
    (manager := sampleManager) "t" (Some {[ "id" := VStr "a"; "v" := VNum 5 ]})
    (Some (storeWith [rowA]))
  = (Resolved {[ "id" := VStr "a"; "v" := VNum 5 ]},
     Some {| tableDefinitions := tableDefinitions (storeWith [rowA]);
             db := {[ "t" := {| tableColumns := todoColumns;
                                tableRows := [ {[ "id" := VStr "a"; "v" := VNum 5 ]} ] |};
                      "operations" :=
                        {| tableColumns := operationsColumns;
                           tableRows := [ {[ "id" := VStr "a";
                                             "tableName" := VStr "t";
                                             "action" := VStr "update" ]} ] |} ]} |}).
Proof. vm_compute. reflexivity. Qed.

(** when the logging operation fails, the row is not deleted either *)
Example failed_batch_changes_nothing :
  del (localStore := sqliteLocalStore (serializer := plainSerializer))
    (manager := brokenManager) "t" (Some rowA) (Some (storeWith [rowA]))
  = (Rejected (DefinitionNotFound "nowhere"), Some (storeWith [rowA]))
  /\ (executeBatch (serializer := plainSerializer)
        [Some {| action := "delete"; opTableName := "t"; opData := DataNull;
                 opId := VStr "a" |}] (storeWith [rowA])).1
     = Resolved tt.
Proof. split; vm_compute; reflexivity. Qed.

(** on a custom store whose lookup resolves with [undefined] for a missing
    record, [insert] reaches its batch and writes the row and the log entry *)
Example insert_on_custom_store :
  insert (localStore := lenientStore) (manager := sampleManager)
    "t" (Some rowA) (Some (storeWith []))
  = (Resolved rowA,
     Some {| tableDefinitions := tableDefinitions (storeWith []);
             db := {[ "t" := {| tableColumns := todoColumns; tableRows := [rowA] |};
                      "operations" :=
                        {| tableColumns := operationsColumns;
                           tableRows := [ {[ "id" := VStr "a";
                                             "tableName" := VStr "t";
                                             "action" := VStr "insert" ]} ] |} ]} |}).
Proof. vm_compute. reflexivity. Qed.

End SyncContextExamples.

(** ** The statements of an upsert on the engine *)

Section UpsertStatements.
Import StoreHelper Sqlite SqliteStore.











Section OneRecord.
Variables (r : record) (t : table) (key : value).
Hypothesis Hkey : r !! idPropertyName = Some key.
Hypothesis Hnotnull : Extensions.isNull key = false.
Hypothesis Hpk : idIsPrimaryKey t.






End OneRecord.

End UpsertStatements.

(** ** Upsert *)

Section Upsert.
Import StoreHelper Sqlite SqliteStore.
Context {serializer : SqliteSerializer}.

#[local] Arguments runAll : simpl never.
#[local] Arguments upsertStatements : simpl never.
#[local] Arguments statementsOf : simpl never.





(** the accepted column types are no numerals, so the comparison of
    [columnDefinitions.length] with 999 is false for a valid definition *)
Lemma valid_definition_length_check (td : tableDefinition) :
  validateTableDefinition td = inr tt ->
  lengthExceeds999 (columnDefinitions td) = false.
Proof.
  unfold validateTableDefinition, lengthExceeds999.
  destruct (Validate.notNullOrEmpty _ _); [discriminate|]. cbn.
  case_bool_decide as Htypes; [|discriminate]. cbn. intros _.
  destruct (columnDefinitions td !! "length") as [ty|] eqn:Hty; [|reflexivity].
  apply (Htypes _ _) in Hty.
  assert (Hall : Forall (fun ty => toNumber ty = None) columnTypeTokens)
    by (repeat constructor).
  rewrite Forall_forall in Hall. now rewrite (Hall ty Hty).
Qed.


Lemma upsert_run (tableName : string) (d : data) (s : store) :
  upsert tableName d s
  = match _upsert (tableDefinitions s) tableName d (db s) with
    | inr (_, db') => (Resolved tt, setDb s db')
    | inl e => (Rejected e, s)
    end.
Proof.
  unfold upsert, transaction.
  destruct (_upsert _ _ _ _) as [e|[[] db']]; [|reflexivity].
  now destruct s.
Qed.













End Upsert.

Section UpsertExamples.
Import StoreHelper Sqlite SqliteStore Samples.

Lemma todo_is_valid : validateTableDefinition todo = inr tt.
Proof. reflexivity. Qed.








End UpsertExamples.

(** ** Adding columns on the engine *)

Section AddColumns.
Import StoreHelper Sqlite SqliteStore.






End AddColumns.

(** ** Defining a table *)

Section DefineTable.
Import StoreHelper Sqlite SqliteStore.
Context {serializer : SqliteSerializer}.

#[local] Arguments runAll : simpl never.





(** the columns that are added are columns of the definition that the table
    does not have, whatever the case of their names *)
Lemma missingColumns_spec (td : tableDefinition) (t : table) (c ty : string) :
  (c, ty) ∈ missingColumns td t <->
  columnDefinitions td !! c = Some ty
  /\ (JsString.toLowerCase c ∉ (JsString.toLowerCase <$> columnNames t))
  /\ (JsString.toLowerCase c ∉ ["constructor"; "__proto__"]).
Proof.
  unfold missingColumns.
  rewrite list_elem_of_In, filter_In, <- list_elem_of_In, elem_of_map_to_list.
  unfold isExistingColumn. cbn [fst].
  rewrite negb_true_iff, orb_false_iff, !bool_decide_eq_false, elem_of_list_to_set.
  tauto.
Qed.

Lemma forEach_total {A B} (f : A -> throws B) (R : A -> B -> Prop) (l : list A) :
  (forall a, a ∈ l -> exists b, f a = inr b /\ R a b) ->
  exists l', forEach f l = inr l' /\ Forall2 R l l'.
Proof.
  induction l as [|a l IH]; intros Hf.
  - exists []. split; [reflexivity|constructor].
  - destruct (Hf a) as (b & Hb & HR); [left|].
    destruct IH as (l' & Hl' & HR'); [intros a' Ha'; apply Hf; now right|].
    exists (b :: l'). cbn [forEach]. rewrite Hb, Hl'. split; [reflexivity|].
    now constructor.
Qed.

(** a list with distinct keys has at most one entry for a key *)
Lemma filter_key_length {A B} `{EqDecision A} (k : A) (l : list (A * B)) :
  NoDup l.*1 ->
  (length (List.filter (fun a => bool_decide (a.1 = k)) l) <= 1)%nat.
Proof.
  induction l as [|a l IH]; intros Hnd; [cbn; lia|].
  cbn in Hnd. apply NoDup_cons in Hnd as [Ha Hnd]. cbn [List.filter].
  case_bool_decide as Hk; [|now apply IH].
  assert (Hnone : List.filter (fun a0 : A * B => bool_decide (a0.1 = k)) l = []).
  { destruct (List.filter _ l) as [|x rest] eqn:Hf; [reflexivity|]. exfalso.
    assert (Hx : In x (List.filter (fun a0 : A * B => bool_decide (a0.1 = k)) l))
      by (rewrite Hf; now left).
    apply filter_In in Hx as [Hx Hxk]. apply bool_decide_eq_true in Hxk.
    apply Ha. rewrite Hk, <- Hxk. apply list_elem_of_fmap. exists x.
    split; [reflexivity|now apply list_elem_of_In]. }
  rewrite Hnone. cbn. lia.
Qed.

Lemma clauses_primary_key (l : list (string * string)) (clauses : list column) :
  Forall2 clauseOf l clauses ->
  length (List.filter isPrimaryKey clauses)
  = length (List.filter (fun a : string * string => bool_decide (a.1 = idPropertyName)) l).
Proof.
  induction 1 as [|a b l clauses (_ & _ & Hpk) _ IH]; [reflexivity|].
  cbn [List.filter]. rewrite Hpk. unfold isId.
  destruct (bool_decide (a.1 = idPropertyName)); cbn; now rewrite IH.
Qed.

Lemma clauses_names (l : list (string * string)) (clauses : list column) :
  Forall2 clauseOf l clauses -> columnName <$> clauses = l.*1.
Proof.
  induction 1 as [|a b l clauses (Hname & _) _ IH]; [reflexivity|].
  cbn. now rewrite Hname, IH.
Qed.

(** defining a table that is not there creates it, when the definition is
    valid, its column names are distinct up to case and within the limit of
    the engine, and every column type has a SQLite type *)
Lemma noTableNamed_absent (tableName : string) (d : database) :
  noTableNamed tableName d -> d !! tableName = None.
Proof.
  intros Hnone. destruct (d !! tableName) as [t|] eqn:Ht; [|reflexivity].
  now destruct (Hnone tableName (mk_is_Some _ _ Ht)).
Qed.

Lemma ex_proj1 {A} {P Q : A -> Prop} : (exists a, P a /\ Q a) -> exists a, P a.
Proof. intros (a & Ha & _). now exists a. Qed.

Lemma defineTable_absent (td : tableDefinition) (s : store) :
  db s !! name td = None ->
  validateTableDefinition td = inr tt ->
  distinctColumns td ->
  (size (columnDefinitions td) <= SQLITE_MAX_COLUMN)%nat ->
  (forall c ty, columnDefinitions td !! c = Some ty ->
                exists sqliteType, getSqliteType ty = inr sqliteType) ->
  exists clauses,
    defineTable td s
    = (Resolved tt,
       {| tableDefinitions := addTableDefinition (tableDefinitions s) td;
          db := <[name td := {| tableColumns := clauses; tableRows := [] |}]> (db s) |})
    /\ Forall2 clauseOf (map_to_list (columnDefinitions td)) clauses.
Proof.
  intros Habsent Hvalid Hdistinct Hsize Htypes.
  destruct (forEach_total
    (fun '(columnName, columnType) =>
       sqliteType ← getSqliteType columnType;
       inr {| columnName := columnName; declaredType := sqliteType;
              isPrimaryKey := isId columnName |})
    clauseOf (map_to_list (columnDefinitions td))) as (clauses & Hclauses & HR).
  { intros [c ty] Hc. apply elem_of_map_to_list in Hc.
    destruct (Htypes c ty Hc) as [sqliteType Hty]. rewrite Hty. cbn.
    eexists. split; [reflexivity|]. now repeat split. }
  exists clauses. split; [|exact HR].
  unfold defineTable. rewrite Hvalid.
  unfold transaction, query. cbn [executeSql]. rewrite Habsent.
  cbn [mbind throws_bind length Nat.ltb Nat.leb].
  unfold createTable. rewrite Hclauses. cbn [mbind throws_bind].
  unfold run. cbn [executeSql].
  rewrite bool_decide_eq_false_2 by (rewrite Habsent; now intros [? ?]).
  assert (Hid : is_Some (columnDefinitions td !! idPropertyName)).
  { unfold validateTableDefinition in Hvalid.
    destruct (Validate.notNullOrEmpty _ _); [discriminate|]. cbn in Hvalid.
    destruct (negb _); [discriminate|].
    destruct (columnDefinitions td !! idPropertyName); [eauto|discriminate]. }
  rewrite bool_decide_eq_false_2.
  2:{ intros ->. apply Forall2_nil_inv_r in HR. destruct Hid as [ty Hid].
      apply elem_of_map_to_list in Hid. rewrite HR in Hid.
      now apply elem_of_nil in Hid. }
  rewrite (clauses_names _ _ HR).
  rewrite (bool_decide_eq_true_2 _ Hdistinct). cbn [negb].
  rewrite (clauses_primary_key _ _ HR).
  pose proof (filter_key_length idPropertyName (map_to_list (columnDefinitions td))
                (NoDup_fst_map_to_list _)) as Hpk.
  replace (1 <? length _)%nat with false by (symmetry; apply Nat.ltb_ge; exact Hpk).
  rewrite <- (Forall2_length _ _ _ HR), length_map_to_list.
  replace (SQLITE_MAX_COLUMN <? size (columnDefinitions td))%nat with false
    by (symmetry; apply Nat.ltb_ge; exact Hsize).
  reflexivity.
Qed.

(** the table that is created has the columns of the definition, the id
    column being its primary key *)
Lemma created_table (td : tableDefinition) (clauses : list column) (rows : list record) :
  validateTableDefinition td = inr tt ->
  Forall2 clauseOf (map_to_list (columnDefinitions td)) clauses ->
  idIsPrimaryKey {| tableColumns := clauses; tableRows := rows |}
  /\ (forall c, c ∈ columnNames {| tableColumns := clauses; tableRows := rows |}
                <-> is_Some (columnDefinitions td !! c)).
Proof.
  intros Hvalid HR.
  assert (Hnames : forall c, c ∈ columnName <$> clauses
                             <-> is_Some (columnDefinitions td !! c)).
  { intros c. rewrite (clauses_names _ _ HR). rewrite list_elem_of_fmap. split.
    - intros ([c' ty] & -> & Hin). apply elem_of_map_to_list in Hin. eauto.
    - intros [ty Hty]. exists (c, ty). split; [reflexivity|].
      now apply elem_of_map_to_list. }
  split; [|exact Hnames]. split.
  - apply Hnames. unfold validateTableDefinition in Hvalid.
    destruct (Validate.notNullOrEmpty _ _); [discriminate|]. cbn in Hvalid.
    destruct (negb _); [discriminate|].
    destruct (columnDefinitions td !! idPropertyName); [eauto|discriminate].
  - cbn. intros c Hc. apply list_elem_of_lookup in Hc as [i Hi].
    destruct (Forall2_lookup_r _ _ _ _ _ HR Hi) as (a & _ & Hname & _ & Hpk).
    rewrite Hpk, Hname. unfold isId. apply bool_decide_eq_true.
Qed.




(** a table whose primary key is the id keeps it when [defineTable] adds
    columns *)
Lemma missingColumns_keep_primary_key (td : tableDefinition) (t : table) :
  idIsPrimaryKey t -> idIsPrimaryKey (withColumns t (missingColumns td t)).
Proof.
  intros [Hid Honly]. split.
  - unfold columnNames, withColumns. cbn. rewrite fmap_app.
    apply elem_of_app. now left.
  - unfold withColumns. cbn. intros c Hc. apply elem_of_app in Hc as [Hc|Hc].
    + now apply Honly.
    + apply list_elem_of_fmap in Hc as ([name ty] & -> & Hc).
      apply missingColumns_spec in Hc as (_ & Hc & _). cbn. split; [discriminate|].
      intros ->. exfalso. apply Hc. apply list_elem_of_fmap. eauto.
Qed.


End DefineTable.

Section DefineTableExamples.
Import StoreHelper Sqlite SqliteStore Samples.


End DefineTableExamples.

(** ** The number of columns *)

Section ColumnCount.
Import StoreHelper Sqlite SqliteStore.
Context {serializer : SqliteSerializer}.

(** C7, as amended: [defineTable] does not count the columns of a
    definition. A valid definition, of more than 999 columns as well, is
    accepted when no table has its name, and its table is created with all
    its columns, as long as the engine takes the statements: the table name
    is a name it reads without brackets, the column names are names it reads
    between brackets, distinct up to case and at most SQLITE_MAX_COLUMN, and
    every column type has a SQLite type that is a type name. The comparison
    with 999 in the code is in [_upsert]. *)
Theorem defineTable_does_not_count_columns (td : tableDefinition) (s : store) :
  isBareName (name td) = true ->
  noTableNamed (name td) (db s) ->
  validateTableDefinition td = inr tt ->
  distinctColumns td ->
  (size (columnDefinitions td) <= SQLITE_MAX_COLUMN)%nat ->
  (forall c ty, columnDefinitions td !! c = Some ty ->
                isBracketName c = true
                /\ exists sqliteType, getSqliteType ty = inr sqliteType
                                      /\ isBareName sqliteType = true) ->
  (defineTable td s).1 = Resolved tt
  /\ exists t, db (defineTable td s).2 !! name td = Some t
               /\ length (tableColumns t) = size (columnDefinitions td)
               /\ (forall c, c ∈ columnNames t <-> is_Some (columnDefinitions td !! c)).
Proof.
  intros _ Hnone Hvalid Hdistinct Hsize Htypes.
  destruct (defineTable_absent td s (noTableNamed_absent _ _ Hnone) Hvalid Hdistinct
              Hsize (fun c ty Hc => ex_proj1 (proj2 (Htypes c ty Hc))))
    as (clauses & -> & HR).
  split; [reflexivity|].
  exists {| tableColumns := clauses; tableRows := [] |}. cbn [snd db].
  split; [apply lookup_insert_eq|]. split.
  - cbn. now rewrite <- (Forall2_length _ _ _ HR), length_map_to_list.
  - now apply created_table.
Qed.

End ColumnCount.

Section ColumnCountExamples.
Import StoreHelper Sqlite SqliteStore Samples.

Lemma size_list_to_set_le (l : list string) :
  (size (list_to_set l : gset string) <= length l)%nat.
Proof.
  induction l as [|a l IH]; [reflexivity|]. cbn [list_to_set foldr length].
  rewrite size_union_alt, size_singleton.
  assert (Hsub : list_to_set l ∖ {[a]} ⊆ (list_to_set l : gset string))
    by apply subseteq_difference_l, reflexivity.
  apply subseteq_size in Hsub. lia.
Qed.

(** a list with as many elements as the set of its elements has no element
    twice *)
Lemma NoDup_by_size (l : list string) :
  size (list_to_set l : gset string) = length l -> NoDup l.
Proof.
  induction l as [|a l IH]; intros Hsize; [constructor|].
  cbn [list_to_set foldr length] in Hsize.
  pose proof (size_list_to_set_le l) as Hle.
  destruct (decide (a ∈ l)) as [Hin|Hnotin].
  - exfalso.
    assert (Heq : {[a]} ∪ list_to_set l = (list_to_set l : gset string)).
    { apply subseteq_union_1_L, singleton_subseteq_l, elem_of_list_to_set, Hin. }
    rewrite Heq in Hsize. lia.
  - apply NoDup_cons. split; [exact Hnotin|]. apply IH.
    rewrite size_union in Hsize.
    + rewrite size_singleton in Hsize. lia.
    + apply disjoint_singleton_l. now rewrite elem_of_list_to_set.
Qed.

Lemma wide_is_valid : validateTableDefinition wide = inr tt.
Proof. vm_compute. reflexivity. Qed.

Lemma wide_distinct : distinctColumns wide.
Proof. apply NoDup_by_size. vm_compute. reflexivity. Qed.

Lemma wide_size : size (columnDefinitions wide) = 1000%nat.
Proof. vm_compute. reflexivity. Qed.

Lemma wide_types (c ty : string) :
  columnDefinitions wide !! c = Some ty ->
  exists sqliteType, getSqliteType (SqliteSerializer := plainSerializer) ty = inr sqliteType.
Proof.
  assert (Hall : map_Forall (fun _ ty => ty ∈ ["string"; "integer"]) (columnDefinitions wide))
    by (apply (bool_decide_unpack _); vm_compute; exact I).
  intros Hc. apply Hall in Hc.
  apply elem_of_cons in Hc as [->|Hc]; [now eexists|].
  apply list_elem_of_singleton in Hc as ->. now eexists.
Qed.

Lemma wide_within_limit : (size (columnDefinitions wide) <= SQLITE_MAX_COLUMN)%nat.
Proof. rewrite wide_size. apply Nat.leb_le. vm_compute. reflexivity. Qed.

(** C7, the claim as stated fails: the definition with the 1000 columns id,
    c1, ..., c999 is not rejected; [defineTable] resolves and the table is
    created. *)
Lemma defineTable_accepts_1000_columns :
  (999 < size (columnDefinitions wide))%nat
  /\ (defineTable (serializer := plainSerializer) wide emptyStore).1 = Resolved tt
  /\ is_Some (db (defineTable (serializer := plainSerializer) wide emptyStore).2
              !! "wide").
Proof.
  split; [rewrite wide_size; lia|].
  destruct (defineTable_absent (serializer := plainSerializer) wide emptyStore
              eq_refl wide_is_valid wide_distinct wide_within_limit wide_types)
    as (clauses & -> & _).
  split; [reflexivity|]. cbn [snd db]. rewrite lookup_insert_eq. eauto.
Qed.

Lemma wide_names (c ty : string) :
  columnDefinitions wide !! c = Some ty ->
  isBracketName c = true
  /\ exists sqliteType, getSqliteType (SqliteSerializer := plainSerializer) ty = inr sqliteType
                        /\ isBareName sqliteType = true.
Proof.
  assert (Hall : map_Forall (fun c ty => isBracketName c = true
                                         /\ ty ∈ ["string"; "integer"])
                   (columnDefinitions wide))
    by (apply (bool_decide_unpack _); vm_compute; exact I).
  intros Hc. apply Hall in Hc as [Hname Hc]. split; [exact Hname|].
  apply elem_of_cons in Hc as [->|Hc]; [now eexists|].
  apply list_elem_of_singleton in Hc as ->. now eexists.
Qed.

Lemma defineTable_does_not_count_columns_witness :
  isBareName (name wide) = true
  /\ noTableNamed (name wide) (db emptyStore)
  /\ validateTableDefinition wide = inr tt
  /\ distinctColumns wide
  /\ (size (columnDefinitions wide) <= SQLITE_MAX_COLUMN)%nat
  /\ (defineTable (serializer := plainSerializer) wide emptyStore).1 = Resolved tt.
Proof.
  assert (Hnone : noTableNamed (name wide) (db emptyStore)).
  { intros other [t Ht]. cbn [db emptyStore] in Ht. now apply lookup_empty_Some in Ht. }
  split; [reflexivity|]. split; [exact Hnone|].
  split; [exact wide_is_valid|]. split; [exact wide_distinct|].
  split; [exact wide_within_limit|].
  exact (proj1 (defineTable_does_not_count_columns (serializer := plainSerializer)
                  wide emptyStore eq_refl Hnone wide_is_valid wide_distinct
                  wide_within_limit wide_names)).
Defined.

End ColumnCountExamples.

(** ** Deleting the records of a query *)

Section DeleteUsingQuery.
Import StoreHelper Sqlite SqliteStore.
Context {serializer : SqliteSerializer}.



Lemma forEach_inr {A B} (f : A -> throws B) (l : list A) (l' : list B) :
  forEach f l = inr l' -> Forall2 (fun a b => f a = inr b) l l'.
Proof.
  revert l'. induction l as [|a l IH]; intros l'; cbn [forEach].
  - intros Heq. inversion Heq. constructor.
  - destruct (f a) as [e|b] eqn:Hb; [discriminate|]. cbn.
    destruct (forEach f l) as [e|bs]; [discriminate|]. cbn.
    intros Heq. inversion Heq. constructor; auto.
Qed.

(** C9, the code at a query: [del] with a query never settles and deletes
    nothing, whatever the query and the store. [del] runs as a task of the
    runner of the store, and [_deleteUsingQuery], called by that task, calls
    [self.read(query)], which gives the runner a second task; the runner
    starts it only after the task of [del] has settled, and that task settles
    only in the handlers of the promise of [read]. ([read] itself calls
    [this._read(query)] from its task.) *)
Theorem del_with_query_never_settles (q : Query.components) (ids : idsArgument)
    (s : store) :
  del (inr q) ids s = (Pending, s).
Proof. reflexivity. Qed.

End DeleteUsingQuery.

Section DeleteUsingQueryExamples.
Import StoreHelper Sqlite SqliteStore Samples.

(** the rows with v = 1 are read by [read] called by the application, and
    [del] of the same query leaves them where they are *)
Example del_with_query_deletes_nothing :
  read (serializer := plainSerializer) selectV1 (storeWith [rowA; rowB])
  = Resolved (Records [ {[ "v" := VNum 1 ]} ])
  /\ del (serializer := plainSerializer) (inr selectV1) (IdArray [])
       (storeWith [rowA; rowB])
     = (Pending, storeWith [rowA; rowB]).
Proof. split; [vm_compute|]; reflexivity. Qed.

End DeleteUsingQueryExamples.

(** ** Deleting records by id *)

Section DeleteByIds.
Import StoreHelper Sqlite SqliteStore.
Context {serializer : SqliteSerializer}.



Lemma del_run (tableName : string) (ids : idsArgument) (s : store) :
  tableName <> "" ->
  del (inl tableName) ids s
  = match (validateIds (idArray ids);; _deleteIds tableName (idArray ids) (db s)) with
    | inr (_, db') => (Resolved tt, setDb s db')
    | inl e => (Rejected e, s)
    end.
Proof.
  intros Hname. unfold del. rewrite (notNullOrEmpty_ok _ _ Hname).
  unfold transaction. fold (idArray ids).
  destruct (validateIds (idArray ids)) as [e|[]]; cbn [mbind throws_bind].
  - now rewrite setDb_same.
  - destruct (_deleteIds tableName (idArray ids) (db s)) as [e|[[] db']]; [|reflexivity].
    now rewrite setDb_same.
Qed.


End DeleteByIds.

Section DeleteByIdsExamples.
Import StoreHelper Sqlite SqliteStore Samples StoreSamples.


(** the row a is deleted and the row b stays *)
Example del_by_ids_leaves_other_rows :
  del (serializer := plainSerializer) (inl "t") (IdArray [VStr "a"; VNull])
    (storeWith [rowA; rowB])
  = (Resolved tt, storeWith [rowB]).
Proof. vm_compute. reflexivity. Qed.

End DeleteByIdsExamples.

(** ** The operations of a batch *)

Section ExecuteBatch.
Import StoreHelper Sqlite SqliteStore.
Context {serializer : SqliteSerializer}.

Lemma executeBatch_run (operations : list (option operation)) (s : store) :
  executeBatch operations s
  = match batchBody (tableDefinitions s) operations (db s) with
    | inr (_, db') => (Resolved tt, setDb s db')
    | inl e => (Rejected e, s)
    end.
Proof.
  unfold executeBatch, transaction.
  destruct (batchBody _ _ _) as [e|[[] db']]; [|reflexivity].
  now rewrite setDb_same.
Qed.

Lemma batchBody_app defs (l1 l2 : list (option operation)) (d : database) :
  batchBody defs (l1 ++ l2) d = '(_, d') ← batchBody defs l1 d; batchBody defs l2 d'.
Proof.
  revert d. induction l1 as [|[op|] l1 IH]; intros d; [reflexivity| |].
  - cbn [app batchBody].
    destruct (Validate.notNullOrEmpty (action op) "Value"); [reflexivity|]. cbn.
    destruct (Validate.notNullOrEmpty (opTableName op) "Value"); [reflexivity|]. cbn.
    match goal with |- context [mbind _ ?c] => destruct c as [e|[[] d']] end;
      [reflexivity|]. cbn. apply IH.
  - cbn [app batchBody]. apply IH.
Qed.

Lemma toLowerCase_nonempty (s : string) :
  JsString.toLowerCase s <> "" -> s <> "".
Proof. now intros Hs ->. Qed.

(** X3: a batch is its parts one after the other in one transaction:
    [executeBatch] of [first ++ second] settles as [executeBatch second] does
    on the store that [executeBatch first] leaves, but when either part fails
    the store is left as it was before the first. *)
Theorem executeBatch_app (first second : list (option operation)) (s : store) :
  executeBatch (first ++ second) s = thenBatch second s (executeBatch first s).
Proof.
  unfold thenBatch. rewrite !executeBatch_run, batchBody_app.
  destruct (batchBody (tableDefinitions s) first (db s)) as [e|[[] d1]];
    cbn [mbind throws_bind]; [reflexivity|].
  rewrite executeBatch_run. cbn [tableDefinitions db setDb].
  destruct (batchBody (tableDefinitions s) second d1) as [e|[[] d2]]; reflexivity.
Qed.

(** X2: a batch of one operation on a table name that is not empty does what
    the operation does alone. An operation whose action is upsert, in any
    case of its letters, is [upsert] of its data; one whose action is delete
    is [del] of its id when the id is not null, and does nothing when it is;
    any other action is rejected as not supported, the store left as it
    was. *)
Theorem executeBatch_of_one_operation (op : operation) (s : store) :
  opTableName op <> "" ->
  (JsString.toLowerCase (action op) = "upsert" ->
   executeBatch [Some op] s = upsert (opTableName op) (opData op) s)
  /\ (JsString.toLowerCase (action op) = "delete" ->
      Extensions.isNull (opId op) = false ->
      executeBatch [Some op] s = del (inl (opTableName op)) (OneId (opId op)) s)
  /\ (JsString.toLowerCase (action op) = "delete" ->
      Extensions.isNull (opId op) = true ->
      executeBatch [Some op] s = (Resolved tt, s))
  /\ (action op <> "" ->
      JsString.toLowerCase (action op) ∉ ["upsert"; "delete"] ->
      executeBatch [Some op] s = (Rejected (OperationNotSupported (action op)), s)).
Proof.
  intros Hname.
  assert (Hbody : action op <> "" ->
    batchBody (tableDefinitions s) [Some op] (db s)
    = '(_, db') ←
        (if bool_decide (JsString.toLowerCase (action op) = "upsert")
         then _upsert (tableDefinitions s) (opTableName op) (opData op) (db s)
         else if bool_decide (JsString.toLowerCase (action op) = "delete")
         then
           if negb (Extensions.isNull (opId op))
           then
             Validate.isValidId (opId op) "id";;
             _deleteIds (opTableName op) [opId op] (db s)
           else inr (tt, db s)
         else inl (OperationNotSupported (action op)));
      inr (tt, db')).
  { intros Haction. cbn [batchBody].
    rewrite (notNullOrEmpty_ok _ _ Haction), (notNullOrEmpty_ok _ _ Hname).
    reflexivity. }
  split; [|split; [|split]].
  - intros Haction. rewrite executeBatch_run, Hbody, upsert_run
      by (apply toLowerCase_nonempty; now rewrite Haction).
    rewrite (bool_decide_eq_true_2 _ Haction).
    destruct (_upsert _ _ _ _) as [e|[[] db']]; reflexivity.
  - intros Haction Hnull. rewrite executeBatch_run, Hbody, (del_run _ _ _ Hname)
      by (apply toLowerCase_nonempty; now rewrite Haction).
    rewrite Haction, Hnull. cbn [bool_decide negb idArray].
    rewrite bool_decide_eq_false_2 by discriminate.
    rewrite bool_decide_eq_true_2 by reflexivity.
    unfold validateIds. cbn [forEach]. rewrite Hnull. cbn [negb].
    destruct (Validate.isValidId (opId op) "id") as [e|[]]; cbn [mbind throws_bind];
      [reflexivity|].
    destruct (_deleteIds _ _ _) as [e|[[] db']]; reflexivity.
  - intros Haction Hnull. rewrite executeBatch_run, Hbody
      by (apply toLowerCase_nonempty; now rewrite Haction).
    rewrite Haction, Hnull.
    rewrite bool_decide_eq_false_2 by discriminate.
    rewrite bool_decide_eq_true_2 by reflexivity.
    cbn. now rewrite setDb_same.
  - intros Haction Hother. rewrite executeBatch_run, Hbody by assumption.
    rewrite !bool_decide_eq_false_2; [reflexivity| |].
    + intros Heq. apply Hother. rewrite Heq. right. left.
    + intros Heq. apply Hother. rewrite Heq. left.
Qed.

Lemma batchBody_unsupported defs (operations : list (option operation))
    (op : operation) (d : database) :
  Some op ∈ operations ->
  JsString.toLowerCase (action op) ∉ ["upsert"; "delete"] ->
  exists e, batchBody defs operations d = inl e.
Proof.
  intros Hin Hother. revert d.
  induction operations as [|entry rest IH]; intros d; [now apply elem_of_nil in Hin|].
  apply elem_of_cons in Hin as [<-|Hin].
  - cbn [batchBody].
    destruct (Validate.notNullOrEmpty (action op) "Value"); [eauto|].
    cbn [mbind throws_bind].
    destruct (Validate.notNullOrEmpty (opTableName op) "Value"); [eauto|].
    cbn [mbind throws_bind].
    rewrite !bool_decide_eq_false_2; [cbn; eauto| |].
    + intros Heq. apply Hother. rewrite Heq. right. left.
    + intros Heq. apply Hother. rewrite Heq. left.
  - destruct entry as [op'|]; cbn [batchBody]; [|now apply IH].
    destruct (Validate.notNullOrEmpty (action op') "Value"); [eauto|]. cbn.
    destruct (Validate.notNullOrEmpty (opTableName op') "Value"); [eauto|]. cbn.
    match goal with |- context [mbind _ ?c] => destruct c as [e|[[] d']] end;
      [cbn; eauto|]. cbn. now apply IH.
Qed.

(** X4: a batch that holds, anywhere, an operation whose action is neither
    upsert nor delete is rejected and leaves the store as it was, whatever
    the operations before it have done. *)
Theorem executeBatch_unsupported_action (operations : list (option operation))
    (op : operation) (s : store) :
  Some op ∈ operations ->
  JsString.toLowerCase (action op) ∉ ["upsert"; "delete"] ->
  exists e, executeBatch operations s = (Rejected e, s).
Proof.
  intros Hin Hother. rewrite executeBatch_run.
  destruct (batchBody_unsupported (tableDefinitions s) operations op (db s) Hin Hother)
    as [e ->]. eauto.
Qed.

End ExecuteBatch.

Section ExecuteBatchExamples.
Import StoreHelper Sqlite SqliteStore Samples StoreSamples.

Lemma executeBatch_of_one_operation_witness :
  opTableName upsertA <> ""
  /\ JsString.toLowerCase (action upsertA) = "upsert"
  /\ executeBatch (serializer := plainSerializer) [Some upsertA] (storeWith [rowB])
     = upsert (serializer := plainSerializer) "t" (DataRecord rowA) (storeWith [rowB]).
Proof.
  assert (Hname : opTableName upsertA <> "") by discriminate.
  split; [exact Hname|]. split; [reflexivity|].
  exact (proj1 (executeBatch_of_one_operation (serializer := plainSerializer)
                  upsertA (storeWith [rowB]) Hname) eq_refl).
Defined.

Lemma executeBatch_unsupported_action_witness :
  Some insertB ∈ [Some upsertA; Some insertB]
  /\ (JsString.toLowerCase (action insertB) ∉ ["upsert"; "delete"])
  /\ exists e, executeBatch (serializer := plainSerializer)
                 [Some upsertA; Some insertB] (storeWith [])
               = (Rejected e, storeWith []).
Proof.
  assert (Hin : Some insertB ∈ [Some upsertA; Some insertB]) by (right; left).
  assert (Hother : JsString.toLowerCase (action insertB) ∉ ["upsert"; "delete"]).
  { intros Hin'. apply elem_of_cons in Hin' as [Heq|Hin']; [discriminate|].
    apply list_elem_of_singleton in Hin'. discriminate. }
  split; [exact Hin|]. split; [exact Hother|].
  exact (executeBatch_unsupported_action (serializer := plainSerializer)
           [Some upsertA; Some insertB] insertB (storeWith []) Hin Hother).
Defined.

End ExecuteBatchExamples.

(** ** Upsert, lookup and delete, one after the other *)

Section UpsertRoundTrips.
Import StoreHelper Sqlite SqliteStore.
Context {serializer : SqliteSerializer}.

#[local] Arguments runAll : simpl never.
#[local] Arguments upsertStatements : simpl never.
#[local] Arguments statementsOf : simpl never.

Lemma isValidId_not_null (v : value) :
  Extensions.isValidId v = true -> Extensions.isNull v = false.
Proof. now destruct v. Qed.








End UpsertRoundTrips.

Section DeleteRoundTrips.
Import StoreHelper Sqlite SqliteStore.
Context {serializer : SqliteSerializer}.







End DeleteRoundTrips.

Section RoundTripExamples.
Import StoreHelper Sqlite SqliteStore Samples StoreSamples.








End RoundTripExamples.

(** ** The batch of a local operation *)

Section SyncContextBatch.
Import StoreHelper Sqlite SqliteStore.
Context {serializer : SqliteSerializer}.

(** a batch of two entries is its first entry and then its second, in one
    transaction *)
Lemma batch_of_two (first second : option operation) (s : store) :
  executeBatch [first; second] s = thenBatch [second] s (executeBatch [first] s).
Proof.
  unfold thenBatch. rewrite !executeBatch_run.
  rewrite (batchBody_app _ [first] [second]).
  destruct (batchBody (tableDefinitions s) [first] (db s)) as [e|[[] d1]];
    cbn [mbind throws_bind]; [reflexivity|].
  rewrite executeBatch_run. cbn [tableDefinitions db setDb].
  destruct (batchBody (tableDefinitions s) [second] d1) as [e|[[] d2]]; reflexivity.
Qed.

(** the batch of the one operation upsert is the upsert *)
Lemma batch_of_upsert (tableName : string) (d : data) (s : store) :
  tableName <> "" ->
  executeBatch [Some {| action := "upsert"; opTableName := tableName;
                        opData := d; opId := VUndefined |}] s
  = upsert tableName d s.
Proof.
  intros Hname. rewrite executeBatch_run, upsert_run. cbn [batchBody action opTableName].
  rewrite (notNullOrEmpty_ok "upsert" _ ltac:(discriminate)), (notNullOrEmpty_ok _ _ Hname).
  cbn [mbind throws_bind opData].
  rewrite (bool_decide_eq_true_2 (JsString.toLowerCase "upsert" = "upsert") eq_refl).
  destruct (_upsert _ _ _ _) as [e|[[] db']]; reflexivity.
Qed.

(** the batch of the one operation delete of a valid id is the delete *)
Lemma batch_of_delete (tableName : string) (id : value) (s : store) :
  tableName <> "" ->
  Extensions.isValidId id = true ->
  executeBatch [Some {| action := "delete"; opTableName := tableName;
                        opData := DataNull; opId := id |}] s
  = del (inl tableName) (OneId id) s.
Proof.
  intros Hname Hid. pose proof (isValidId_not_null _ Hid) as Hnull.
  rewrite executeBatch_run, (del_run _ _ _ Hname).
  cbn [batchBody action opTableName opId idArray].
  rewrite (notNullOrEmpty_ok "delete" _ ltac:(discriminate)), (notNullOrEmpty_ok _ _ Hname).
  cbn [mbind throws_bind].
  rewrite (bool_decide_eq_false_2 (JsString.toLowerCase "delete" = "upsert"))
    by discriminate.
  rewrite (bool_decide_eq_true_2 (JsString.toLowerCase "delete" = "delete") eq_refl).
  rewrite Hnull. cbn [negb]. unfold validateIds. cbn [forEach]. rewrite Hnull. cbn [negb].
  rewrite (isValidId_ok _ _ Hid). cbn [mbind throws_bind].
  destruct (_deleteIds _ _ _) as [e|[[] db']]; reflexivity.
Qed.

Lemma upsert_settles (tableName : string) (d : data) (s s' : store) :
  upsert tableName d s <> (Pending, s').
Proof. rewrite upsert_run. destruct (_upsert _ _ _ _) as [e|[[] db']]; discriminate. Qed.

Lemma executeBatch_settles (operations : list (option operation)) (s s' : store) :
  executeBatch operations s <> (Pending, s').
Proof. rewrite executeBatch_run. destruct (batchBody _ _ _) as [e|[[] db']]; discriminate. Qed.

Lemma executeBatch_rejected (operations : list (option operation)) (s s' : store) e :
  executeBatch operations s = (Rejected e, s') -> s' = s.
Proof.
  rewrite executeBatch_run. destruct (batchBody _ _ _) as [e'|[[] db']]; congruence.
Qed.

Lemma afterBatch_two {A} (first loggingOperation : option operation) (value : A)
    (s : store) :
  afterBatch [first; loggingOperation] value s
  = bothOrNeither value loggingOperation s (executeBatch [first] s).
Proof.
  unfold afterBatch, bothOrNeither. cbn [storeExecuteBatch sqliteLocalStore].
  rewrite batch_of_two.
  destruct (thenBatch [loggingOperation] s (executeBatch [first] s))
    as [[[]|e|] s'] eqn:Hthen; try reflexivity.
  - f_equal. f_equal. unfold thenBatch in Hthen.
    destruct (executeBatch [first] s) as [[[]|e0|] s1]; [|congruence|discriminate].
    destruct (executeBatch [loggingOperation] s1) as [[[]|e1|] s2]; congruence.
  - exfalso. unfold thenBatch in Hthen.
    destruct (executeBatch [first] s) as [[[]|e0|] s1] eqn:Hfirst;
      [|discriminate|now apply executeBatch_settles in Hfirst].
    destruct (executeBatch [loggingOperation] s1) as [[[]|e1|] s2] eqn:Hsecond;
      [discriminate|discriminate|now apply executeBatch_settles in Hsecond].
Qed.

(** C2: a local [insert], [update] or [del] applies the data mutation and
    its log entry by one call of [executeBatch], on the data operation and
    the logging operation: on any store, once the checks have passed and the
    logging operation is there, the task settles as that one batch does. On
    the SQLite store [executeBatch] runs its whole list in one transaction:
    null entries are skipped; the batch is rejected with the store as it
    was, or resolves; a batch of two entries is the first and then the
    second, and the first is undone when the second fails; the batch of an
    upsert operation is [upsert] and that of a delete operation is [del]. So
    on the SQLite store an [update] or a [del] that reaches its batch
    applies the data mutation and then the log entry, and leaves both
    applied, when both succeed, or the store as it was. ([insert] on the
    SQLite store is always rejected, see C1.) *)
Theorem crud_is_one_batch :
  (forall (S : Type) (anyStore : LocalStore S) (anyManager : OperationTableManager S)
          (tableName : string) (instance : record) (s : S),
      let key := getProp instance "id" in
      let upsertOperation :=
        Some {| action := "upsert"; opTableName := tableName;
                opData := DataRecord instance; opId := VUndefined |} in
      let deleteOperation :=
        Some {| action := "delete"; opTableName := tableName;
                opData := DataNull; opId := key |} in
      tableName <> "" ->
      Extensions.isValidId key = true ->
      (forall loggingOperation,
          storeLookup tableName key None s = Resolved None ->
          getLoggingOperation tableName "insert" key s = Resolved loggingOperation ->
          SyncContext.insert tableName (Some instance) (Some s)
          = afterBatch [upsertOperation; loggingOperation] instance s)
      /\ (forall found loggingOperation,
            storeLookup tableName key None s = Resolved (Some found) ->
            getLoggingOperation tableName "update" key s = Resolved loggingOperation ->
            SyncContext.update tableName (Some instance) (Some s)
            = afterBatch [upsertOperation; loggingOperation] instance s)
      /\ (forall loggingOperation,
            getLoggingOperation tableName "delete" key s = Resolved loggingOperation ->
            SyncContext.del tableName (Some instance) (Some s)
            = afterBatch [deleteOperation; loggingOperation] tt s)
      /\ (forall e,
            getLoggingOperation tableName "delete" key s = Rejected e ->
            SyncContext.del tableName (Some instance) (Some s) = (Rejected e, Some s)))
  /\ (forall (s : store),
        (forall operations,
           executeBatch operations s
           = executeBatch (Some <$> omap (fun op => op) operations) s)
        /\ (forall operations,
              (exists e, executeBatch operations s = (Rejected e, s))
              \/ (exists db', executeBatch operations s = (Resolved tt, setDb s db')))
        /\ (forall first second,
              executeBatch [first; second] s
              = thenBatch [second] s (executeBatch [first] s))
        /\ (forall tableName d,
              tableName <> "" ->
              executeBatch [Some {| action := "upsert"; opTableName := tableName;
                                    opData := d; opId := VUndefined |}] s
              = upsert tableName d s)
        /\ (forall tableName id,
              tableName <> "" ->
              Extensions.isValidId id = true ->
              executeBatch [Some {| action := "delete"; opTableName := tableName;
                                    opData := DataNull; opId := id |}] s
              = del (inl tableName) (OneId id) s))
  /\ (forall (anyManager : OperationTableManager store)
             (tableName : string) (instance : record) (s : store),
        let key := getProp instance "id" in
        tableName <> "" ->
        Extensions.isValidId key = true ->
        (forall found loggingOperation,
            lookup tableName key false s = Resolved (Some found) ->
            getLoggingOperation tableName "update" key s = Resolved loggingOperation ->
            SyncContext.update tableName (Some instance) (Some s)
            = bothOrNeither instance loggingOperation s
                (upsert tableName (DataRecord instance) s))
        /\ (forall loggingOperation,
              getLoggingOperation tableName "delete" key s = Resolved loggingOperation ->
              SyncContext.del tableName (Some instance) (Some s)
              = bothOrNeither tt loggingOperation s
                  (del (inl tableName) (OneId key) s)))
  /\ (forall (A : Type) (value : A) (loggingOperation : option operation)
             (s : store) (mutation : promise unit * store)
             (outcome : promise A) (after : option store),
        bothOrNeither value loggingOperation s mutation = (outcome, after) ->
        (outcome = Resolved value <->
         exists s1 s2, mutation = (Resolved tt, s1)
                       /\ executeBatch [loggingOperation] s1 = (Resolved tt, s2)
                       /\ after = Some s2)
        /\ (outcome <> Resolved value -> after = Some s)).
Proof.
  split; [|split; [|split]].
  - intros S anyStore anyManager tableName instance s key upsertOperation
      deleteOperation Hname Hid.
    split; [|split; [|split]].
    + intros loggingOperation Hlookup Hlog.
      rewrite (insert_run _ _ _ Hname Hid). fold key. now rewrite Hlookup, Hlog.
    + intros found loggingOperation Hlookup Hlog.
      rewrite (update_run _ _ _ Hname Hid). fold key. now rewrite Hlookup, Hlog.
    + intros loggingOperation Hlog.
      rewrite (del_run_task _ _ _ Hname Hid). fold key. now rewrite Hlog.
    + intros e Hlog.
      rewrite (del_run_task _ _ _ Hname Hid). fold key. now rewrite Hlog.
  - intros s. split; [|split; [|split; [|split]]].
    + intros operations. rewrite !executeBatch_run.
      now rewrite <- (batchBody_skips_null _ operations).
    + intros operations. rewrite executeBatch_run.
      destruct (batchBody _ _ _) as [e|[[] db']]; eauto.
    + intros first second. apply batch_of_two.
    + intros tableName d. apply batch_of_upsert.
    + intros tableName id. apply batch_of_delete.
  - intros anyManager tableName instance s key Hname Hid. split.
    + intros found loggingOperation Hlookup Hlog.
      rewrite (update_run _ _ _ Hname Hid). fold key.
      cbn [storeLookup sqliteLocalStore default]. rewrite Hlookup, Hlog.
      now rewrite afterBatch_two, (batch_of_upsert _ _ _ Hname).
    + intros loggingOperation Hlog.
      rewrite (del_run_task _ _ _ Hname Hid). fold key. rewrite Hlog.
      now rewrite afterBatch_two, (batch_of_delete _ _ _ Hname Hid).
  - intros A value loggingOperation s mutation outcome after.
    unfold bothOrNeither, thenBatch.
    destruct mutation as [[[]|e|] s1].
    + destruct (executeBatch [loggingOperation] s1) as [[[]|e|] s2] eqn:Hbatch;
        intros [= <- <-].
      * split; [|congruence]. split; [eauto|reflexivity].
      * split; [|reflexivity]. split; [discriminate|].
        intros (s1' & s2' & [= <-] & Hother & _). congruence.
      * split; [|reflexivity]. split; [discriminate|].
        intros (s1' & s2' & [= <-] & Hother & _). congruence.
    + intros [= <- <-]. split; [|reflexivity]. split; [discriminate|].
      intros (s1' & s2' & Hother & _). discriminate.
    + intros [= <- <-]. split; [|reflexivity]. split; [discriminate|].
      intros (s1' & s2' & Hother & _). discriminate.
Qed.

End SyncContextBatch.

Section SyncContextBatchExamples.
Import StoreHelper Sqlite SqliteStore Samples.

(** [update('t', { id: 'a', v: 5 })] on the row [{ id: 'a', v: 1 }]: the row
    and the log entry are written together *)
Lemma crud_is_one_batch_witness :
  "t" <> ""
  /\ Extensions.isValidId (getProp rowA5 "id") = true
  /\ lookup (serializer := plainSerializer) "t" (getProp rowA5 "id") false
       (storeWith [rowA])
     = Resolved (Some rowA)
  /\ SyncContext.update (localStore := sqliteLocalStore (serializer := plainSerializer))
       (manager := sampleManager) "t" (Some rowA5) (Some (storeWith [rowA]))
     = (Resolved rowA5,
        Some {| tableDefinitions := tableDefinitions (storeWith [rowA]);
                db := {[ "t" := {| tableColumns := todoColumns;
                                   tableRows := [rowA5] |};
                         "operations" :=
                           {| tableColumns := operationsColumns;
                              tableRows := [ {[ "id" := VStr "a";
                                                "tableName" := VStr "t";
                                                "action" := VStr "update" ]} ] |} ]} |}).
Proof.
  assert (Hname : "t" <> "") by discriminate.
  split; [exact Hname|]. split; [reflexivity|]. split; [reflexivity|].
  refine (eq_trans
    (proj1 (proj1 (proj2 (proj2 (crud_is_one_batch (serializer := plainSerializer))))
              sampleManager "t" rowA5 (storeWith [rowA]) Hname eq_refl)
       rowA _ eq_refl eq_refl) _).
  vm_compute. reflexivity.
Defined.

End SyncContextBatchExamples.

(** ** Upsert of nothing *)

Section UpsertNothing.
Import StoreHelper Sqlite SqliteStore.
Context {serializer : SqliteSerializer}.

#[local] Arguments runAll : simpl never.

Lemma serializeRecords_all_null cols (i : nat) (records : list (option record)) :
  (forall entry, entry ∈ records -> entry = None) ->
  serializeRecords cols i records = inr records.
Proof.
  revert i. induction records as [|entry rest IH]; intros i Hnull; [reflexivity|].
  rewrite (Hnull entry) by left. cbn [serializeRecords]. cbn [mbind throws_bind].
  rewrite IH by (intros entry' Hin; apply Hnull; now right). reflexivity.
Qed.

Lemma statementsOf_all_null (tableName : string) (records : list (option record)) :
  (forall entry, entry ∈ records -> entry = None) ->
  statementsOf tableName records = [].
Proof.
  induction records as [|entry rest IH]; intros Hnull; [reflexivity|].
  rewrite (Hnull entry) by left. unfold statementsOf in *. cbn [flat_map app].
  apply IH. intros entry' Hin. apply Hnull. now right.
Qed.

(** X20: [upsert] of nothing. For a table name that has no definition in the
    registry the call is rejected, whatever the data, null included. For a
    table that has one, [upsert] of [null] resolves and leaves the store as
    it was, and so does, the definition being valid, [upsert] of an array
    that is empty or holds null entries only; no statement is run, and the
    table need not be in the database. *)
Theorem upsert_of_nothing (tableName : string) (s : store) :
  tableName <> "" ->
  (tableDefinitions s !! tableName = None ->
   forall d, upsert tableName d s = (Rejected (DefinitionNotFound tableName), s))
  /\ (forall td,
        tableDefinitions s !! tableName = Some td ->
        upsert tableName DataNull s = (Resolved tt, s)
        /\ (validateTableDefinition td = inr tt ->
            forall records,
              (forall entry, entry ∈ records -> entry = None) ->
              upsert tableName (DataArray records) s = (Resolved tt, s))).
Proof.
  intros Hname. split.
  - intros Htd d. rewrite upsert_run. unfold _upsert.
    rewrite (notNullOrEmpty_ok _ _ Hname). cbn [mbind throws_bind].
    unfold getTableDefinition. now rewrite Htd.
  - intros td Htd. split.
    + rewrite upsert_run. unfold _upsert.
      rewrite (notNullOrEmpty_ok _ _ Hname). cbn [mbind throws_bind].
      unfold getTableDefinition. rewrite Htd. cbv beta iota. now rewrite setDb_same.
    + intros Hvalid records Hnull. rewrite upsert_run. unfold _upsert.
      rewrite (notNullOrEmpty_ok _ _ Hname). cbn [mbind throws_bind].
      unfold getTableDefinition. rewrite Htd. cbn [recordsOf].
      rewrite (serializeRecords_all_null _ _ _ Hnull). cbn [mbind throws_bind].
      rewrite (valid_definition_length_check _ Hvalid).
      rewrite (statementsOf_all_null _ _ Hnull).
      change (runAll [] (db s)) with (inr (tt, db s) : throws (unit * database)).
      cbv beta iota. now rewrite setDb_same.
Qed.

End UpsertNothing.

Section UpsertNothingExamples.
Import StoreHelper Sqlite SqliteStore Samples StoreSamples.

Lemma upsert_of_nothing_witness :
  "t" <> ""
  /\ tableDefinitions (storeWith [rowA]) !! "t" = Some todo
  /\ tableDefinitions emptyStore !! "t" = None
  /\ upsert (serializer := plainSerializer) "t" DataNull (storeWith [rowA])
     = (Resolved tt, storeWith [rowA])
  /\ upsert (serializer := plainSerializer) "t" (DataArray [None; None]) (storeWith [rowA])
     = (Resolved tt, storeWith [rowA])
  /\ upsert (serializer := plainSerializer) "t" DataNull emptyStore
     = (Rejected (DefinitionNotFound "t"), emptyStore).
Proof.
  assert (Hname : "t" <> "") by discriminate.
  assert (Hnull : forall entry : option record, entry ∈ [None; None] -> entry = None).
  { intros entry Hin. apply elem_of_cons in Hin as [->|Hin]; [reflexivity|].
    now apply list_elem_of_singleton in Hin. }
  split; [exact Hname|]. split; [reflexivity|]. split; [reflexivity|].
  split; [|split].
  - exact (proj1 (proj2 (upsert_of_nothing (serializer := plainSerializer) "t"
                           (storeWith [rowA]) Hname) todo eq_refl)).
  - exact (proj2 (proj2 (upsert_of_nothing (serializer := plainSerializer) "t"
                           (storeWith [rowA]) Hname) todo eq_refl)
             todo_is_valid [None; None] Hnull).
  - exact (proj1 (upsert_of_nothing (serializer := plainSerializer) "t" emptyStore Hname)
             eq_refl DataNull).
Defined.

End UpsertNothingExamples.

(** ** Defining a table again, and using a table that has been defined *)

Section DefineTableAgain.
Import StoreHelper Sqlite SqliteStore.
Context {serializer : SqliteSerializer}.

#[local] Arguments runAll : simpl never.







End DefineTableAgain.

(** ** Reading a query *)

Section Read.
Import StoreHelper Sqlite SqliteStore.
Context {serializer : SqliteSerializer}.

Lemma read_run (q : Query.components) (s : store) (td : tableDefinition) (t : table) :
  tableDefinitions s !! Query.table q = Some td ->
  db s !! Query.table q = Some t ->
  (forall c, c ∈ Query.selections q -> c ∈ columnNames t) ->
  read q s
  = match forEach (fun row => deserialize row (columnDefinitions td))
            (project (Query.selections q) <$> selectedRows q t) with
    | inl e => Rejected e
    | inr result =>
        Resolved (if Query.includeTotalCount q
                  then RecordsAndCount result
                         (VNum (Z.of_nat (length (List.filter (Query.filters q) (tableRows t)))))
                  else Records result)
    end.
Proof.
  intros Htd Ht Hsel. unfold read, readAs, TaskRunner.run, _read, getTableDefinition. rewrite Htd.
  unfold getSqlStatementsFromQuery, transaction, query.
  assert (Hrows : executeSql (SelectQuery q) [] (db s)
                  = inr (project (Query.selections q) <$> selectedRows q t, db s)).
  { cbn [executeSql]. unfold getTable. rewrite Ht. cbn [mbind throws_bind].
    replace (forallb (hasColumn t) (Query.selections q)) with true; [reflexivity|].
    symmetry. apply forallb_forall. intros c Hc. apply bool_decide_eq_true_2.
    now apply Hsel, list_elem_of_In. }
  assert (Hcount : executeSql (SelectCount q) [] (db s)
    = inr ([ {[ "count" := VNum (Z.of_nat (length (List.filter (Query.filters q)
                                                    (tableRows t)))) ]} ], db s)).
  { cbn [executeSql]. unfold getTable. now rewrite Ht. }
  destruct (Query.includeTotalCount q); cbn [fst snd]; rewrite Hrows;
    cbn [mbind throws_bind];
    destruct (forEach (fun row => deserialize row (columnDefinitions td)) _) as [e|result];
    cbn [mbind throws_bind fst]; try reflexivity.
  rewrite Hcount. cbn [mbind throws_bind fst]. unfold getProp.
  rewrite lookup_singleton_eq. reflexivity.
Qed.

Lemma length_selectedRows (q : Query.components) (t : table) :
  (length (selectedRows q t) <= length (List.filter (Query.filters q) (tableRows t)))%nat.
Proof.
  unfold selectedRows.
  assert (Hdrop : (length (drop (Query.skip q) (List.filter (Query.filters q) (tableRows t)))
                   <= length (List.filter (Query.filters q) (tableRows t)))%nat)
    by (rewrite length_drop; lia).
  destruct (Query.take q) as [n|]; [|exact Hdrop].
  rewrite length_firstn. lia.
Qed.

Lemma forEach_length {A B} (f : A -> throws B) (l : list A) (l' : list B) :
  forEach f l = inr l' -> length l' = length l.
Proof. intros Hl. apply forEach_inr in Hl. symmetry. exact (Forall2_length _ _ _ Hl). Qed.

Lemma selectedRows_pass (q : Query.components) (t : table) (row : record) :
  row ∈ selectedRows q t -> row ∈ tableRows t /\ Query.filters q row = true.
Proof.
  intros Hrow.
  assert (Hdrop : forall row0, row0 ∈ drop (Query.skip q)
                                      (List.filter (Query.filters q) (tableRows t)) ->
                               row0 ∈ List.filter (Query.filters q) (tableRows t)).
  { intros row0 Hin. apply list_elem_of_lookup in Hin as [i Hi].
    rewrite lookup_drop in Hi. now apply list_elem_of_lookup_2 in Hi. }
  assert (Hpass : row ∈ List.filter (Query.filters q) (tableRows t)).
  { unfold selectedRows in Hrow. destruct (Query.take q) as [n|]; [|now apply Hdrop].
    apply Hdrop. apply list_elem_of_lookup in Hrow as [i Hi].
    apply lookup_take_Some in Hi as [Hi _]. now apply list_elem_of_lookup_2 in Hi. }
  apply list_elem_of_In, filter_In in Hpass as [Hin Hpass].
  split; [now apply list_elem_of_In|exact Hpass].
Qed.

Lemma selectedRows_all (q : Query.components) (t : table) :
  Query.skip q = 0%nat -> Query.take q = None ->
  selectedRows q t = List.filter (Query.filters q) (tableRows t).
Proof. unfold selectedRows. now intros -> ->. Qed.

(** X11: [read] is rejected when the table of the query has no definition in
    the registry. On a defined table that is in the database, for a query
    that selects columns of the table: asking for the total count changes
    nothing in the records, the result is then the same records with the
    count, which is the number of rows that pass the filter, before skip and
    take; every record is the deserialization of a row that passes the
    filter, projected on the selection; the records are no more than the
    count, and no more than the limit of the query when it has one; and a
    query without skip and limit resolves with as many records as the count.
    (The order of the records is left open.) *)
Theorem read_outcomes (q : Query.components) (s : store) :
  (tableDefinitions s !! Query.table q = None ->
   read q s = Rejected (DefinitionNotFound (Query.table q)))
  /\ (forall td t,
        tableDefinitions s !! Query.table q = Some td ->
        db s !! Query.table q = Some t ->
        (forall c, c ∈ Query.selections q -> c ∈ columnNames t) ->
        let passing := length (List.filter (Query.filters q) (tableRows t)) in
        (forall result,
           read (withTotalCount false q) s = Resolved (Records result) <->
           read (withTotalCount true q) s
           = Resolved (RecordsAndCount result (VNum (Z.of_nat passing))))
        /\ (forall result count,
              read (withTotalCount true q) s = Resolved (RecordsAndCount result count) ->
              count = VNum (Z.of_nat passing))
        /\ (forall result,
              read (withTotalCount false q) s = Resolved (Records result) ->
              (forall r, r ∈ result ->
                 exists row, row ∈ tableRows t /\ Query.filters q row = true
                             /\ deserialize (project (Query.selections q) row)
                                   (columnDefinitions td) = inr r)
              /\ (length result <= passing)%nat
              /\ match Query.take q with
                 | Some limit => (length result <= limit)%nat
                 | None => True
                 end
              /\ (Query.skip q = 0%nat -> Query.take q = None ->
                  length result = passing))).
Proof.
  split.
  - intros Htd. unfold read, readAs, TaskRunner.run, _read, getTableDefinition.
    now rewrite Htd.
  - intros td t Htd Ht Hsel passing.
    assert (Hrun : forall flag,
      read (withTotalCount flag q) s
      = match forEach (fun row => deserialize row (columnDefinitions td))
                (project (Query.selections q) <$> selectedRows q t) with
        | inl e => Rejected e
        | inr result =>
            Resolved (if flag then RecordsAndCount result (VNum (Z.of_nat passing))
                      else Records result)
        end).
    { intros flag. now rewrite (read_run (withTotalCount flag q) s td t). }
    split; [|split].
    + intros result. rewrite !Hrun.
      destruct (forEach _ _) as [e|result']; [split; discriminate|].
      split; intros Heq; inversion Heq; reflexivity.
    + intros result count. rewrite Hrun.
      destruct (forEach _ _) as [e|result']; [discriminate|].
      intros Heq. now inversion Heq.
    + intros result. rewrite Hrun.
      destruct (forEach _ _) as [e|result'] eqn:Hresult; [discriminate|].
      intros Heq. inversion Heq; subst result'.
      pose proof (forEach_length _ _ _ Hresult) as Hlength.
      rewrite length_fmap in Hlength.
      split; [|split; [|split]].
      * intros r Hr. apply forEach_inr in Hresult.
        apply list_elem_of_lookup in Hr as [i Hi].
        destruct (Forall2_lookup_r _ _ _ _ _ Hresult Hi) as (projected & Hp & Hdes).
        apply list_lookup_fmap_Some in Hp as (row & -> & Hrow).
        apply list_elem_of_lookup_2, selectedRows_pass in Hrow as [Hin Hpass].
        now exists row.
      * rewrite Hlength. apply length_selectedRows.
      * rewrite Hlength. unfold selectedRows.
        destruct (Query.take q) as [limit|]; [|exact I].
        rewrite length_firstn. lia.
      * intros Hskip Htake. now rewrite Hlength, selectedRows_all.
Qed.

End Read.

Section ReadExamples.
Import StoreHelper Sqlite SqliteStore Samples StoreSamples.

Lemma read_outcomes_witness :
  tableDefinitions (storeWith [rowA; rowB]) !! Query.table countV1 = Some todo
  /\ (forall c, c ∈ Query.selections countV1 -> c ∈ columnNames tableAB)
  /\ read (serializer := plainSerializer) (withTotalCount false countV1)
       (storeWith [rowA; rowB])
     = Resolved (Records [rowA])
  /\ read (serializer := plainSerializer) (withTotalCount true countV1)
       (storeWith [rowA; rowB])
     = Resolved (RecordsAndCount [rowA] (VNum 1)).
Proof.
  assert (Hsel : forall c, c ∈ Query.selections countV1 -> c ∈ columnNames tableAB).
  { intros c Hc. now apply elem_of_nil in Hc. }
  assert (Hread : read (serializer := plainSerializer) (withTotalCount false countV1)
                    (storeWith [rowA; rowB])
                  = Resolved (Records [rowA])) by reflexivity.
  split; [reflexivity|]. split; [exact Hsel|]. split; [exact Hread|].
  exact (proj1 (proj1 (proj2 (read_outcomes (serializer := plainSerializer) countV1
                  (storeWith [rowA; rowB])) todo tableAB eq_refl eq_refl Hsel)
                 [rowA]) Hread).
Defined.

End ReadExamples.

(** ** Deleting and the precondition checks in the sync context *)

Section SyncDelete.
Import StoreHelper Sqlite SqliteStore SyncContext.
Context {serializer : SqliteSerializer} {manager : OperationTableManager store}.


End SyncDelete.

Section PreconditionErrors.
Import SqliteStore SyncContext.
Context {S : Type} {localStore : LocalStore S} {manager : OperationTableManager S}.

(** X15: on any store, with a table name that is not empty and an instance of
    valid id: when the lookup finds a record, [insert] is rejected and the
    store is as it was, and so is [update] when the lookup resolves with
    [undefined]; the error is the ReferenceError of the symbol [id], which
    the message of the intended error names and nothing defines. An error of
    the lookup is the error of [insert] and of [update]. *)
Theorem precondition_checks_throw_reference_errors (tableName : string)
    (instance : record) (s : S) :
  tableName <> "" ->
  Extensions.isValidId (getProp instance "id") = true ->
  (forall found,
      storeLookup tableName (getProp instance "id") None s = Resolved (Some found) ->
      insert tableName (Some instance) (Some s) = (Rejected (ReferenceError "id"), Some s))
  /\ (storeLookup tableName (getProp instance "id") None s = Resolved None ->
      update tableName (Some instance) (Some s) = (Rejected (ReferenceError "id"), Some s))
  /\ (forall e,
        storeLookup tableName (getProp instance "id") None s = Rejected e ->
        insert tableName (Some instance) (Some s) = (Rejected e, Some s)
        /\ update tableName (Some instance) (Some s) = (Rejected e, Some s)).
Proof.
  intros Hname Hid.
  assert (Hargs : validateArguments tableName (Some instance) "instance" "instance.id"
                  = inr instance).
  { unfold validateArguments.
    now rewrite (notNullOrEmpty_ok _ _ Hname), (isValidId_ok _ _ Hid). }
  split; [|split].
  - intros found Hfound. unfold insert. rewrite Hargs. cbn [onStore].
    unfold mbind, async_bind, reading. now rewrite Hfound.
  - intros Hmissing. unfold update. rewrite Hargs. cbn [onStore].
    unfold mbind, async_bind, reading. now rewrite Hmissing.
  - intros e Hfailed. unfold insert, update. rewrite Hargs. cbn [onStore].
    unfold mbind, async_bind, reading. now rewrite Hfailed.
Qed.

End PreconditionErrors.

Section SyncExamples.
Import StoreHelper Sqlite SqliteStore SyncContext Samples StoreSamples.


Lemma precondition_checks_throw_reference_errors_witness :
  "t" <> ""
  /\ Extensions.isValidId (getProp rowA "id") = true
  /\ insert (localStore := lenientStore) (manager := sampleManager)
       "t" (Some rowA) (Some (storeWith [rowA]))
     = (Rejected (ReferenceError "id"), Some (storeWith [rowA]))
  /\ update (localStore := lenientStore) (manager := sampleManager)
       "t" (Some rowA) (Some (storeWith [rowB]))
     = (Rejected (ReferenceError "id"), Some (storeWith [rowB])).
Proof.
  assert (Hname : "t" <> "") by discriminate.
  split; [exact Hname|]. split; [reflexivity|]. split.
  - exact (proj1 (precondition_checks_throw_reference_errors (localStore := lenientStore)
                    (manager := sampleManager) "t" rowA (storeWith [rowA]) Hname eq_refl)
             rowA eq_refl).
  - exact (proj1 (proj2 (precondition_checks_throw_reference_errors
                    (localStore := lenientStore) (manager := sampleManager) "t" rowA
                    (storeWith [rowB]) Hname eq_refl)) eq_refl).
Defined.

End SyncExamples.

(** ** The schema and the registry *)

Section Schema.
Import StoreHelper Sqlite SqliteStore.
Context {serializer : SqliteSerializer}.

#[local] Arguments runAll : simpl never.

Lemma sameSchema_refl (d : database) : sameSchema d d.
Proof. now intros n. Qed.

Lemma sameSchema_trans (d1 d2 d3 : database) :
  sameSchema d1 d2 -> sameSchema d2 d3 -> sameSchema d1 d3.
Proof. intros H12 H23 n. now rewrite H23, H12. Qed.

Lemma sameSchema_setRows (d : database) (tableName : string) (t : table)
    (rows : list record) :
  d !! tableName = Some t -> sameSchema d (<[tableName := setRows t rows]> d).
Proof.
  intros Ht n. destruct (decide (n = tableName)) as [->|Hn].
  - now rewrite lookup_insert_eq, Ht.
  - now rewrite lookup_insert_ne by congruence.
Qed.

Lemma run_keepsSchema (statement : sql) (parameters : list value) :
  isDataStatement statement = true -> keepsSchema (run statement parameters).
Proof.
  intros Hdata d [] d' Hrun. unfold run in Hrun.
  destruct statement; try discriminate; cbn [executeSql] in Hrun;
    unfold getTable in Hrun; destruct (d !! tableName) as [t|] eqn:Ht;
    cbn [mbind throws_bind] in Hrun; try discriminate;
    repeat match type of Hrun with
           | context [if ?b then _ else _] => destruct b
           end;
    cbn in Hrun; try discriminate; inversion Hrun; subst;
    first [apply sameSchema_refl | now apply sameSchema_setRows].
Qed.

Lemma runAll_keepsSchema (statements : list (sql * list value)) :
  Forall (fun statement => isDataStatement statement.1 = true) statements ->
  keepsSchema (runAll statements).
Proof.
  induction 1 as [|[statement parameters] rest Hdata _ IH]; intros d [] d' Hrun.
  - inversion Hrun. apply sameSchema_refl.
  - change (runAll ((statement, parameters) :: rest) d)
      with ('(_, d1) ← run statement parameters d; runAll rest d1) in Hrun.
    destruct (run statement parameters d) as [e|[[] d1]] eqn:Hfirst; [discriminate|].
    cbn [mbind throws_bind] in Hrun.
    apply (sameSchema_trans _ d1).
    + exact (run_keepsSchema _ _ Hdata d tt d1 Hfirst).
    + exact (IH d1 tt d' Hrun).
Qed.

Lemma statementsOf_data (tableName : string) (records : list (option record)) :
  Forall (fun statement => isDataStatement statement.1 = true)
    (statementsOf tableName records).
Proof.
  unfold statementsOf. induction records as [|[r|] rest IH]; cbn [flat_map];
    [constructor| |exact IH].
  apply Forall_app. split; [|exact IH]. unfold upsertStatements.
  constructor; [reflexivity|]. destruct (0 <? _)%nat; repeat constructor.
Qed.

Lemma _upsert_keepsSchema defs (tableName : string) (d : data) :
  keepsSchema (_upsert defs tableName d).
Proof.
  intros db0 [] db' Hrun. unfold _upsert in Hrun.
  destruct (Validate.notNullOrEmpty tableName "tableName");
    cbn [mbind throws_bind] in Hrun; [discriminate|].
  destruct (getTableDefinition defs tableName) as [td|];
    cbv beta iota in Hrun; [|discriminate].
  assert (Hrecords : forall records,
    (records' ← serializeRecords (columnDefinitions td) 0 records;
     if lengthExceeds999 (columnDefinitions td) then inl TooManyColumns
     else runAll (statementsOf tableName records') db0) = inr (tt, db') ->
    sameSchema db0 db').
  { intros records Hr.
    destruct (serializeRecords (columnDefinitions td) 0 records) as [e|records'];
      cbn [mbind throws_bind] in Hr; [discriminate|].
    destruct (lengthExceeds999 (columnDefinitions td)); [discriminate|].
    exact (runAll_keepsSchema _ (statementsOf_data _ _) db0 tt db' Hr). }
  destruct d as [|r|records].
  - inversion Hrun. apply sameSchema_refl.
  - now apply (Hrecords [Some r]).
  - now apply (Hrecords records).
Qed.

Lemma _deleteIds_keepsSchema (tableName : string) (ids : list value) :
  keepsSchema (_deleteIds tableName ids).
Proof. now apply run_keepsSchema. Qed.

Lemma batchBody_keepsSchema defs (operations : list (option operation)) :
  keepsSchema (batchBody defs operations).
Proof.
  induction operations as [|[op|] rest IH]; intros d [] d' Hrun.
  - inversion Hrun. apply sameSchema_refl.
  - cbn [batchBody] in Hrun.
    destruct (Validate.notNullOrEmpty (action op) "Value");
      cbn [mbind throws_bind] in Hrun; [discriminate|].
    destruct (Validate.notNullOrEmpty (opTableName op) "Value");
      cbn [mbind throws_bind] in Hrun; [discriminate|].
    match type of Hrun with
    | mbind _ ?c = _ => destruct c as [e|[[] d1]] eqn:Hfirst
    end; cbn [mbind throws_bind] in Hrun; [discriminate|].
    apply (sameSchema_trans _ d1); [|exact (IH d1 tt d' Hrun)].
    case_bool_decide.
    + exact (_upsert_keepsSchema _ _ _ d tt d1 Hfirst).
    + case_bool_decide; [|discriminate].
      destruct (negb (Extensions.isNull (opId op))).
      * destruct (Validate.isValidId (opId op) "id");
          cbn [mbind throws_bind] in Hfirst; [discriminate|].
        exact (_deleteIds_keepsSchema _ _ d tt d1 Hfirst).
      * inversion Hfirst. apply sameSchema_refl.
  - exact (IH d tt d' Hrun).
Qed.

Lemma transaction_keepsSchema {A} (body : transactionBody A) (d : database) :
  keepsSchema body -> sameSchema d (transaction body d).2.
Proof.
  intros Hbody. unfold transaction.
  destruct (body d) as [e|[a d']] eqn:Hrun; [apply sameSchema_refl|].
  exact (Hbody d a d' Hrun).
Qed.

Lemma upsert_keeps_schema (tableName : string) (d : data) (s : store) :
  tableDefinitions (upsert tableName d s).2 = tableDefinitions s
  /\ sameSchema (db s) (db (upsert tableName d s).2).
Proof.
  unfold upsert.
  pose proof (transaction_keepsSchema _ (db s) (_upsert_keepsSchema (tableDefinitions s)
                tableName d)) as Hschema.
  destruct (transaction _ (db s)) as [outcome db']. now split.
Qed.

Lemma del_keeps_schema (tableNameOrQuery : string + Query.components)
    (ids : idsArgument) (s : store) :
  tableDefinitions (del tableNameOrQuery ids s).2 = tableDefinitions s
  /\ sameSchema (db s) (db (del tableNameOrQuery ids s).2).
Proof.
  destruct tableNameOrQuery as [tableName|q].
  - unfold del. destruct (Validate.notNullOrEmpty _ _);
      [split; [reflexivity|apply sameSchema_refl]|].
    match goal with
    | |- context [transaction ?body (db s)] =>
        assert (Hbody : keepsSchema body)
    end.
    { intros d0 [] d' Hrun.
      destruct (validateIds _); cbn [mbind throws_bind] in Hrun; [discriminate|].
      exact (_deleteIds_keepsSchema _ _ d0 tt d' Hrun). }
    pose proof (transaction_keepsSchema _ (db s) Hbody) as Hschema.
    destruct (transaction _ (db s)) as [outcome db']. now split.
  - split; [reflexivity|apply sameSchema_refl].
Qed.

Lemma executeBatch_keeps_schema (operations : list (option operation)) (s : store) :
  tableDefinitions (executeBatch operations s).2 = tableDefinitions s
  /\ sameSchema (db s) (db (executeBatch operations s).2).
Proof.
  unfold executeBatch.
  pose proof (transaction_keepsSchema _ (db s)
                (batchBody_keepsSchema (tableDefinitions s) operations)) as Hschema.
  destruct (transaction _ (db s)) as [outcome db']. now split.
Qed.

(** X12: [upsert], [del] (with a table name or with a query) and
    [executeBatch] change rows only: whether they resolve or are rejected,
    the registry of table definitions is as it was, and the database has the
    same tables with the same columns. *)
Theorem data_operations_keep_schema (s : store) :
  (forall tableName d,
     tableDefinitions (upsert tableName d s).2 = tableDefinitions s
     /\ sameSchema (db s) (db (upsert tableName d s).2))
  /\ (forall tableNameOrQuery ids,
        tableDefinitions (del tableNameOrQuery ids s).2 = tableDefinitions s
        /\ sameSchema (db s) (db (del tableNameOrQuery ids s).2))
  /\ (forall operations,
        tableDefinitions (executeBatch operations s).2 = tableDefinitions s
        /\ sameSchema (db s) (db (executeBatch operations s).2)).
Proof.
  split; [|split].
  - intros tableName d. apply upsert_keeps_schema.
  - intros tableNameOrQuery ids. apply del_keeps_schema.
  - intros operations. apply executeBatch_keeps_schema.
Qed.

End Schema.

Section Registry.
Import StoreHelper Sqlite SqliteStore.
Context {serializer : SqliteSerializer}.

#[local] Arguments runAll : simpl never.









End Registry.

Section DefineTableAgainExamples.
Import StoreHelper Sqlite SqliteStore Samples StoreSamples.



Lemma todo_types (c ty : string) :
  columnDefinitions todo !! c = Some ty ->
  exists sqliteType, getSqliteType (SqliteSerializer := plainSerializer) ty = inr sqliteType.
Proof.
  intros Hc. unfold todo in Hc. simpl columnDefinitions in Hc.
  apply lookup_insert_Some in Hc as [[_ <-]|[_ Hc]]; [now eexists|].
  apply lookup_singleton_Some in Hc as [_ <-]. now eexists.
Qed.

Lemma rowA_columns (k : string) :
  is_Some (rowA !! k) -> is_Some (columnDefinitions todo !! k).
Proof.
  intros [v Hk]. unfold rowA in Hk.
  apply lookup_insert_Some in Hk as [[<- _]|[_ Hk]]; [now eexists|].
  apply lookup_singleton_Some in Hk as [<- _]. now eexists.
Qed.





End DefineTableAgainExamples.

Section RegistryExamples.
Import StoreHelper Sqlite SqliteStore Samples StoreSamples.



End RegistryExamples.

(** ** Items of the backend table *)

Section TableItems.
Import JsString Etag MobileServiceSystemColumns Table.

Lemma unescape_escape (v : string) : unescapeQuotes (escapeQuotes v) = v.
Proof.
  induction v as [|c r IH]; [reflexivity|]. cbn [escapeQuotes].
  destruct (Ascii.eqb c dquote) eqn:Hq.
  - apply Ascii.eqb_eq in Hq. subst c.
    rewrite unescapeQuotes_backslash_quote. now rewrite IH.
  - destruct (Ascii.eqb c backslash) eqn:Hb.
    + apply Ascii.eqb_eq in Hb. subst c.
      destruct r as [|d r']; [reflexivity|].
      cbn [escapeQuotes] in *. destruct (Ascii.eqb d dquote) eqn:Hd.
      * apply Ascii.eqb_eq in Hd. subst d.
        rewrite unescapeQuotes_backslash_other by reflexivity. now rewrite IH.
      * rewrite unescapeQuotes_backslash_other by assumption. now rewrite IH.
    + rewrite unescapeQuotes_other by assumption. now rewrite IH.
Qed.

Lemma getEtagFromVersion_quoted (v : string) :
  getEtagFromVersion v = quoted (escapeQuotes v).
Proof. reflexivity. Qed.

(** X16: a version survives the way to an ETag and back:
    [getVersionFromEtag(getEtagFromVersion(version))] is [version], for every
    string; the ETag made from a version is a string between double quotes
    whose inner double quotes all follow a backslash, so that converting it
    to a version and back gives the same ETag. *)
Theorem version_roundtrip (version : string) :
  getVersionFromEtag (getEtagFromVersion version) = version
  /\ getEtagFromVersion (getVersionFromEtag (getEtagFromVersion version))
     = getEtagFromVersion version
  /\ exists s, getEtagFromVersion version = quoted s /\ quotesEscaped false s = true.
Proof.
  assert (Hback : getVersionFromEtag (getEtagFromVersion version) = version).
  { rewrite getEtagFromVersion_quoted, getVersionFromEtag_quoted.
    apply unescape_escape. }
  split; [exact Hback|]. split; [now rewrite Hback|].
  exists (escapeQuotes version). split; [reflexivity|apply quotesEscaped_escapeQuotes].
Qed.

(** X17: [getItemFromResponse] gives the parsed body as it is when the
    response has no [getResponseHeader], no ETag header or an empty one;
    otherwise the body with its version set to the version of the ETag, also
    when the body has a version of its own. For the ETag
    [getEtagFromVersion(version)] the item has the version [version]. *)
Theorem getItemFromResponse_version (body : record) :
  getItemFromResponse {| item := body; getResponseHeader := None |} = body
  /\ (forall header,
        header "ETag" = None \/ header "ETag" = Some "" ->
        getItemFromResponse {| item := body; getResponseHeader := Some header |} = body)
  /\ (forall header eTag,
        header "ETag" = Some eTag -> eTag <> "" ->
        getItemFromResponse {| item := body; getResponseHeader := Some header |}
        = <[Version := VStr (getVersionFromEtag eTag)]> body)
  /\ (forall header version,
        header "ETag" = Some (getEtagFromVersion version) ->
        getItemFromResponse {| item := body; getResponseHeader := Some header |}
        = <[Version := VStr version]> body).
Proof.
  assert (Hset : forall header eTag,
    header "ETag" = Some eTag -> eTag <> "" ->
    getItemFromResponse {| item := body; getResponseHeader := Some header |}
    = <[Version := VStr (getVersionFromEtag eTag)]> body).
  { intros header eTag Hheader Hne. unfold getItemFromResponse. cbn.
    rewrite Hheader. now rewrite bool_decide_eq_false_2. }
  split; [reflexivity|]. split; [|split; [exact Hset|]].
  - intros header [Hnone|Hempty]; unfold getItemFromResponse; cbn.
    + now rewrite Hnone.
    + now rewrite Hempty.
  - intros header version Hheader.
    rewrite (Hset header _ Hheader) by discriminate.
    rewrite getEtagFromVersion_quoted, getVersionFromEtag_quoted.
    now rewrite unescape_escape.
Qed.

Lemma removeSystemProperties_lookup (instance : record) (p : string) :
  removeSystemProperties instance !! p
  = if bool_decide (p ∈ [Version; UpdatedAt; CreatedAt; Deleted; "__proto__"])
    then None else instance !! p.
Proof.
  unfold removeSystemProperties. apply option_eq. intros v.
  rewrite map_lookup_filter_Some. cbn [fst].
  case_bool_decide as Hp.
  - split; [|discriminate]. intros [_ Hnot].
    repeat (apply elem_of_cons in Hp as [->|Hp]; [tauto|]).
    now apply elem_of_nil in Hp.
  - split; [tauto|]. intros Hv. split; [exact Hv|].
    repeat split; intros ->; apply Hp; repeat (first [left|right]).
Qed.

(** X18: [removeSystemProperties] gives the instance without the properties
    version, updatedAt, createdAt and deleted (and without a property
    [__proto__], which the copy cannot take), every other property with its
    value, the id among them; it is idempotent; and it undoes what
    [getItemFromResponse] adds: the item of a response and its body have the
    same properties left. *)
Theorem removeSystemProperties_spec (instance : record) :
  (forall p, removeSystemProperties instance !! p
             = if bool_decide (p ∈ [Version; UpdatedAt; CreatedAt; Deleted; "__proto__"])
               then None else instance !! p)
  /\ removeSystemProperties (removeSystemProperties instance)
     = removeSystemProperties instance
  /\ getProp (removeSystemProperties instance) "id" = getProp instance "id"
  /\ (forall r, item r = instance ->
        removeSystemProperties (getItemFromResponse r) = removeSystemProperties instance).
Proof.
  split; [apply removeSystemProperties_lookup|]. split; [|split].
  - apply map_eq. intros p. rewrite !removeSystemProperties_lookup.
    now case_bool_decide.
  - unfold getProp. now rewrite removeSystemProperties_lookup.
  - intros r <-. apply map_eq. intros p. rewrite !removeSystemProperties_lookup.
    case_bool_decide as Hp; [reflexivity|].
    unfold getItemFromResponse.
    destruct (getResponseHeader r) as [header|]; [|reflexivity].
    destruct (header "ETag") as [eTag|]; [|reflexivity].
    destruct (negb _); [|reflexivity].
    apply lookup_insert_ne. intros <-. apply Hp. left.
Qed.

Lemma checkIdMember_ok (instance : record) (idName : string) :
  checkIdMember instance idName = inr tt <->
  isNullOrZero (getProp instance idName) = true
  \/ (idName = "id"
      /\ exists s, getProp instance idName = VStr s
                   /\ Extensions.isValidId (VStr s) = true).
Proof.
  unfold checkIdMember.
  destruct (isNullOrZero (getProp instance idName)) eqn:Hzero; cbn [negb].
  { split; [now left|reflexivity]. }
  destruct (getProp instance idName) as [| |b|n|s] eqn:Hid;
    try (split; [discriminate|intros [?|(_ & s' & ? & _)]; discriminate]).
  case_bool_decide as Hname; cbn [negb].
  - unfold Validate.isValidId.
    destruct (Extensions.isValidId (VStr s)) eqn:Hvalid; cbn [negb].
    + split; [|reflexivity]. intros _. right. split; [exact Hname|]. now exists s.
    + split; [discriminate|]. intros [?|(_ & s' & Heq & Hs')]; [discriminate|].
      inversion Heq; subst. congruence.
  - split; [discriminate|]. intros [?|(? & _)]; [discriminate|contradiction].
Qed.

(** X19: the loop of [insert] over the names ID, Id, id and iD accepts an
    instance exactly when its members ID, Id and iD are null, undefined, zero
    or empty, and its member id is one of these or a valid string id. An
    instance with a number other than zero under one of the four names is
    rejected. *)
Theorem insert_accepts_no_id_or_a_valid_string (instance : record) :
  (checkIdMembers instance idNames = inr tt <->
   (forall idName, idName ∈ ["ID"; "Id"; "iD"] ->
      isNullOrZero (getProp instance idName) = true)
   /\ (isNullOrZero (getProp instance "id") = true
       \/ exists s, getProp instance "id" = VStr s
                    /\ Extensions.isValidId (VStr s) = true))
  /\ (forall idName n, idName ∈ idNames -> getProp instance idName = VNum n ->
        n <> 0%Z -> exists e, checkIdMembers instance idNames = inl e).
Proof.
  assert (Hloop : checkIdMembers instance idNames = inr tt <->
    checkIdMember instance "ID" = inr tt /\ checkIdMember instance "Id" = inr tt
    /\ checkIdMember instance "id" = inr tt /\ checkIdMember instance "iD" = inr tt).
  { unfold idNames. cbn [checkIdMembers].
    destruct (checkIdMember instance "ID") as [e|[]]; [split; [discriminate|now intros [? _]]|].
    destruct (checkIdMember instance "Id") as [e|[]];
      [split; [discriminate|now intros (_ & ? & _)]|].
    destruct (checkIdMember instance "id") as [e|[]];
      [split; [discriminate|now intros (_ & _ & ? & _)]|].
    destruct (checkIdMember instance "iD") as [e|[]];
      [split; [discriminate|now intros (_ & _ & _ & ?)]|].
    tauto. }
  assert (Hiff : checkIdMembers instance idNames = inr tt <->
    (forall idName, idName ∈ ["ID"; "Id"; "iD"] ->
       isNullOrZero (getProp instance idName) = true)
    /\ (isNullOrZero (getProp instance "id") = true
        \/ exists s, getProp instance "id" = VStr s
                     /\ Extensions.isValidId (VStr s) = true)).
  { rewrite Hloop, !checkIdMember_ok. split.
    - intros (HID & HId & Hid & HiD). split.
      + intros idName Hin.
        apply elem_of_cons in Hin as [->|Hin];
          [destruct HID as [H|(Hn & _)]; [exact H|discriminate]|].
        apply elem_of_cons in Hin as [->|Hin];
          [destruct HId as [H|(Hn & _)]; [exact H|discriminate]|].
        apply list_elem_of_singleton in Hin as ->.
        destruct HiD as [H|(Hn & _)]; [exact H|discriminate].
      + destruct Hid as [Hid|(_ & Hid)]; auto.
    - intros [Hothers Hid].
      split; [left; apply Hothers; left|].
      split; [left; apply Hothers; right; left|].
      split; [|left; apply Hothers; right; right; left].
      destruct Hid as [Hid|Hid]; [now left|right; now split]. }
  split; [exact Hiff|].
  intros idName n Hin Hnum Hn.
  destruct (checkIdMembers instance idNames) as [e|[]]; [eauto|].
  exfalso. destruct (proj1 Hiff eq_refl) as [Hothers Hid].
  assert (Hzero : isNullOrZero (getProp instance idName) = false).
  { rewrite Hnum. cbn. now apply bool_decide_eq_false_2. }
  unfold idNames in Hin.
  apply elem_of_cons in Hin as [->|Hin];
    [rewrite Hothers in Hzero by left; discriminate|].
  apply elem_of_cons in Hin as [->|Hin];
    [rewrite Hothers in Hzero by (right; left); discriminate|].
  apply elem_of_cons in Hin as [->|Hin].
  - destruct Hid as [Hid|(s & Hs & _)]; congruence.
  - apply list_elem_of_singleton in Hin as ->.
    rewrite Hothers in Hzero by (right; right; left). discriminate.
Qed.

End TableItems.

Section TableItemsExamples.
Import JsString Etag MobileServiceSystemColumns Table TableSamples.

(** the version a, double quote, b and its ETag, in which the quote is
    escaped *)
Example version_with_a_quote :
  getEtagFromVersion bareQuoteSample = quoted escapedSample
  /\ getVersionFromEtag (quoted escapedSample) = bareQuoteSample.
Proof. split; reflexivity. Qed.

Lemma getItemFromResponse_version_witness :
  etagV1 "ETag" = Some (getEtagFromVersion "v1")
  /\ getItemFromResponse {| item := itemA; getResponseHeader := Some etagV1 |}
     = <[Version := VStr "v1"]> itemA.
Proof.
  split; [reflexivity|].
  exact (proj2 (proj2 (proj2 (getItemFromResponse_version itemA))) etagV1 "v1" eq_refl).
Defined.

Lemma removeSystemProperties_spec_witness :
  item {| item := itemA; getResponseHeader := Some etagV1 |} = itemA
  /\ removeSystemProperties
       (getItemFromResponse {| item := itemA; getResponseHeader := Some etagV1 |})
     = removeSystemProperties itemA
  /\ removeSystemProperties itemA !! "version" = None
  /\ removeSystemProperties itemA !! "text" = Some (VStr "x").
Proof.
  split; [reflexivity|]. split; [|split].
  - exact (proj2 (proj2 (proj2 (removeSystemProperties_spec itemA)))
             {| item := itemA; getResponseHeader := Some etagV1 |} eq_refl).
  - exact (proj1 (removeSystemProperties_spec itemA) "version").
  - exact (proj1 (removeSystemProperties_spec itemA) "text").
Defined.

Lemma insert_accepts_no_id_or_a_valid_string_witness :
  (forall idName, idName ∈ ["ID"; "Id"; "iD"] ->
     isNullOrZero (getProp stringId idName) = true)
  /\ checkIdMembers stringId idNames = inr tt
  /\ "id" ∈ idNames
  /\ getProp numericId "id" = VNum 7
  /\ exists e, checkIdMembers numericId idNames = inl e.
Proof.
  assert (Hothers : forall idName, idName ∈ ["ID"; "Id"; "iD"] ->
            isNullOrZero (getProp stringId idName) = true).
  { intros idName Hin. apply elem_of_cons in Hin as [->|Hin]; [reflexivity|].
    apply elem_of_cons in Hin as [->|Hin]; [reflexivity|].
    apply list_elem_of_singleton in Hin as ->. reflexivity. }
  assert (Hin : "id" ∈ idNames) by (right; right; left).
  split; [exact Hothers|]. split; [|split; [exact Hin|split; [reflexivity|]]].
  - apply (proj2 (proj1 (insert_accepts_no_id_or_a_valid_string stringId))).
    split; [exact Hothers|]. right. exists "a". split; reflexivity.
  - exact (proj2 (insert_accepts_no_id_or_a_valid_string numericId) "id" 7%Z Hin
             eq_refl ltac:(discriminate)).
Defined.

End TableItemsExamples.

(** ** What lookup, upsert and del leave of the rows *)

Section LookupIgnoresCase.
Import StoreHelper Sqlite SqliteStore.
Context {serializer : SqliteSerializer}.

Lemma sqlEqNoCase_case (v : value) (a b : string) :
  JsString.toLowerCase a = JsString.toLowerCase b ->
  sqlEqNoCase v (VStr a) = sqlEqNoCase v (VStr b).
Proof.
  intros Hcase. destruct v as [| |c|n|s]; try reflexivity.
  cbn. now rewrite Hcase.
Qed.

(** X21: [lookup] compares the id with the id column without regard to the
    ASCII case of letters (COLLATE NOCASE): for two valid string ids that are
    equal up to case, a lookup that suppresses the record-not-found error
    gives the same outcome for both, and a lookup that does not suppress it
    resolves with a record for the one exactly when it resolves with that
    record for the other. *)
Theorem lookup_ignores_case (tableName : string) (a b : string) (s : store) :
  JsString.toLowerCase a = JsString.toLowerCase b ->
  Extensions.isValidId (VStr a) = true ->
  Extensions.isValidId (VStr b) = true ->
  lookup tableName (VStr a) true s = lookup tableName (VStr b) true s
  /\ (forall found, lookup tableName (VStr a) false s = Resolved found <->
                    lookup tableName (VStr b) false s = Resolved found).
Proof.
  intros Hcase Ha Hb.
  assert (Hrows : forall t,
    List.filter (fun r => sqlEqNoCase (getProp r idPropertyName) (VStr a)) (tableRows t)
    = List.filter (fun r => sqlEqNoCase (getProp r idPropertyName) (VStr b)) (tableRows t)).
  { intros t. apply filter_ext. intros row. now apply sqlEqNoCase_case. }
  unfold lookup. rewrite !(isValidId_ok _ "id") by assumption.
  destruct (Validate.notNullOrEmpty tableName "tableName"); cbn [mbind throws_bind];
    [split; [reflexivity|intros found; split; discriminate]|].
  destruct (getTableDefinition (tableDefinitions s) tableName) as [td|];
    [|split; [reflexivity|intros found; split; discriminate]].
  cbn [executeSql]. unfold getTable.
  destruct (db s !! tableName) as [t|]; cbn [mbind throws_bind];
    [|split; [reflexivity|intros found; split; discriminate]].
  destruct (negb (hasColumn t idPropertyName));
    [split; [reflexivity|intros found; split; discriminate]|].
  rewrite Hrows.
  destruct (List.filter _ (tableRows t)) as [|row rest];
    [split; [reflexivity|intros found; split; discriminate]|].
  split; [reflexivity|]. intros found. reflexivity.
Qed.

End LookupIgnoresCase.

Section Rows.
Import StoreHelper Sqlite SqliteStore.
Context {serializer : SqliteSerializer}.

#[local] Arguments runAll : simpl never.

Section Related.
Variable R : list record -> list record -> Prop.
Hypothesis R_refl : forall rows, R rows rows.
Hypothesis R_trans : forall a b c, R a b -> R b c -> R a c.



Lemma tablesRelated_setRows (d : database) (tableName : string) (t : table)
    (rows : list record) :
  d !! tableName = Some t -> R (tableRows t) rows ->
  tablesRelated R d (<[tableName := setRows t rows]> d).
Proof.
  intros Ht Hrows n t0 Ht0. destruct (decide (n = tableName)) as [->|Hn].
  - rewrite lookup_insert_eq. exists (setRows t rows).
    rewrite Ht in Ht0. inversion Ht0; subst t0. auto.
  - rewrite lookup_insert_ne by congruence. exists t0. auto.
Qed.


End Related.









Lemma filter_sublist_of {A} (f : A -> bool) (l : list A) : List.filter f l `sublist_of` l.
Proof.
  induction l as [|a l IH]; [constructor|]. cbn [List.filter].
  destruct (f a); [now constructor|now apply sublist_cons].
Qed.

Lemma _deleteIds_sublist (tableName : string) (ids : list value) (d d' : database) :
  _deleteIds tableName ids d = inr (tt, d') ->
  tablesRelated (fun rows rows' => rows' `sublist_of` rows) d d'.
Proof.
  intros Hrun. unfold _deleteIds, run in Hrun. cbn [executeSql] in Hrun.
  unfold getTable in Hrun. destruct (d !! tableName) as [t|] eqn:Ht;
    cbn [mbind throws_bind] in Hrun; [|discriminate].
  destruct (negb (_ =? _)%nat); [discriminate|].
  destruct (negb (hasColumn t idPropertyName)); [discriminate|].
  cbn [mbind throws_bind] in Hrun. inversion Hrun; subst.
  apply tablesRelated_setRows; [reflexivity|exact Ht|apply filter_sublist_of].
Qed.

(** X23: [del], by ids or by query, never adds a row and never changes
    one: whatever the arguments and the outcome, a table of the database is
    still there afterwards, with the same columns, and its rows afterwards
    are rows it had before, in the same order. *)
Theorem del_only_removes_rows (tableNameOrQuery : string + Query.components)
    (ids : idsArgument) (s : store) (name : string) (t : table) :
  db s !! name = Some t ->
  exists t',
    db (del tableNameOrQuery ids s).2 !! name = Some t'
    /\ tableColumns t' = tableColumns t
    /\ tableRows t' `sublist_of` tableRows t.
Proof.
  intros Ht.
  assert (Hsame : exists t', db s !! name = Some t'
            /\ tableColumns t' = tableColumns t /\ tableRows t' `sublist_of` tableRows t).
  { exists t. repeat split; [exact Ht|reflexivity]. }
  assert (Hdelete : forall tableName l,
    exists t', db (let '(outcome, db') := transaction (_deleteIds tableName l) (db s) in
                   (outcome, setDb s db')).2 !! name = Some t'
               /\ tableColumns t' = tableColumns t
               /\ tableRows t' `sublist_of` tableRows t).
  { intros tableName l. unfold transaction.
    destruct (_deleteIds tableName l (db s)) as [e|[[] db']] eqn:Hrun; cbn [snd];
      [exact Hsame|].
    exact (_deleteIds_sublist _ _ _ _ Hrun name t Ht). }
  destruct tableNameOrQuery as [tableName|q].
  - unfold del. destruct (Validate.notNullOrEmpty _ _); [exact Hsame|].
    unfold transaction.
    match goal with |- context [validateIds ?l] => destruct (validateIds l) as [e|[]] end;
      cbn [mbind throws_bind]; [exact Hsame|].
    apply Hdelete.
  - exact Hsame.
Qed.

End Rows.

Section RowsExamples.
Import StoreHelper Sqlite SqliteStore Samples StoreSamples.

Lemma lookup_ignores_case_witness :
  JsString.toLowerCase "A" = JsString.toLowerCase "a"
  /\ Extensions.isValidId (VStr "A") = true
  /\ Extensions.isValidId (VStr "a") = true
  /\ lookup (serializer := plainSerializer) "t" (VStr "A") true (storeWith [rowA; rowB])
     = lookup (serializer := plainSerializer) "t" (VStr "a") true (storeWith [rowA; rowB])
  /\ (forall found,
        lookup (serializer := plainSerializer) "t" (VStr "A") false (storeWith [rowA; rowB])
        = Resolved found <->
        lookup (serializer := plainSerializer) "t" (VStr "a") false (storeWith [rowA; rowB])
        = Resolved found).
Proof.
  split; [reflexivity|]. split; [reflexivity|]. split; [reflexivity|].
  exact (lookup_ignores_case (serializer := plainSerializer) "t" "A" "a"
           (storeWith [rowA; rowB]) eq_refl eq_refl eq_refl).
Defined.


Lemma del_only_removes_rows_witness :
  db (storeWith [rowA; rowB]) !! "t" = Some tableAB
  /\ exists t',
       db (del (serializer := plainSerializer) (inl "t") (OneId (VStr "a"))
             (storeWith [rowA; rowB])).2 !! "t" = Some t'
       /\ tableColumns t' = tableColumns tableAB
       /\ tableRows t' `sublist_of` tableRows tableAB.
Proof.
  split; [reflexivity|].
  exact (del_only_removes_rows (serializer := plainSerializer) (inl "t") (OneId (VStr "a"))
           (storeWith [rowA; rowB]) "t" tableAB eq_refl).
Defined.

End RowsExamples.
